(** * DDQ validator: the rule engine of [ddq_validator/rules.py],
      the [Finding] model of [ddq_validator/models.py] and the row loop of
      [ddq_validator/cli.py], embedded as Rocq functions, [validate_row]
      also on a heap of row, configuration and finding objects; after them the
      summary of [ddq_validator/report.py], the merge of refined findings
      ([cli.py], [api.py]), the workbook loader of
      [ddq_validator/extract.py] and the row redaction of
      [ddq_validator/redact.py].

    Text model.  A Python [str] is a sequence of code points.  Here a
    string is a Stdlib [string] whose characters are the code points
    0..255 (the Latin-1 repertoire): this contains every literal of the
    module, the German umlauts of the patterns included, and on it
    [str.lower], [str.strip] and the character classes of [re] are the
    finite tables written out below.  Code points above 255 are outside
    the model. *)

From Stdlib Require Import ZArith NArith Ascii String DecimalString.
From stdpp Require Import gmap strings list.

Local Open Scope string_scope.
Local Open Scope bool_scope.

(** ** Characters *)

Module Char.

Definition code (c : ascii) : N := N_of_ascii c.

Definition between (lo hi : N) (c : ascii) : bool :=
  ((lo <=? code c) && (code c <=? hi))%N.

Definition has_code (n : N) (c : ascii) : bool := (code c =? n)%N.

(** [str.isspace], which is also what [str.strip()] removes and what
    the class [\s] of [re] matches. *)
Definition isspace (c : ascii) : bool :=
  between 9 13 c || between 28 32 c || has_code 133 c || has_code 160 c.

(** Characters that [str.lower] changes: A-Z and the accented capitals
    192..222 except the multiplication sign 215. *)
Definition isupper (c : ascii) : bool :=
  between 65 90 c || (between 192 222 c && negb (has_code 215 c)).

Definition lower (c : ascii) : ascii :=
  if isupper c then ascii_of_N (code c + 32) else c.

(** The class [\d] of [re] (decimal digits; only 0-9 below 256). *)
Definition isdecimal (c : ascii) : bool := between 48 57 c.

(** The class [\w] of [re]: alphanumeric characters and the underscore. *)
Definition isword (c : ascii) : bool :=
  between 48 57 c || between 65 90 c || has_code 95 c || between 97 122 c
  || has_code 170 c || between 178 179 c || has_code 181 c || between 185 186 c
  || between 188 190 c || between 192 214 c || between 216 246 c
  || between 248 255 c.

(** The umlauts used by the patterns of [rules.py]. *)
Definition a_uml : ascii := ascii_of_N 228.
Definition o_uml : ascii := ascii_of_N 246.
Definition u_uml : ascii := ascii_of_N 252.
Definition A_uml : ascii := ascii_of_N 196.
Definition O_uml : ascii := ascii_of_N 214.
Definition U_uml : ascii := ascii_of_N 220.
Definition newline : ascii := ascii_of_N 10.

End Char.

(** ** Strings: the [str] methods the engine uses *)

Module Str.

Fixpoint lower (s : string) : string :=
  match s with
  | EmptyString => EmptyString
  | String c s' => String (Char.lower c) (lower s')
  end.

Fixpoint lstrip (s : string) : string :=
  match s with
  | EmptyString => EmptyString
  | String c s' => if Char.isspace c then lstrip s' else s
  end.

Fixpoint rstrip (s : string) : string :=
  match s with
  | EmptyString => EmptyString
  | String c s' =>
      match rstrip s' with
      | EmptyString => if Char.isspace c then EmptyString else String c EmptyString
      | r => String c r
      end
  end.

Definition strip (s : string) : string := lstrip (rstrip s).

(** [s.startswith(p)] *)
Definition startswith (p s : string) : bool := String.prefix p s.

(** [s.startswith((p1, ..., pn))] *)
Definition startswith_any (ps : list string) (s : string) : bool :=
  existsb (fun p => startswith p s) ps.

(** [sub in s] *)
Fixpoint contains (sub s : string) : bool :=
  startswith sub s ||
  match s with
  | EmptyString => false
  | String _ s' => contains sub s'
  end.

(** [any(k in s for k in ks)] *)
Definition contains_any (ks : list string) (s : string) : bool :=
  existsb (fun k => contains k s) ks.

(** [x or ""] on a value of type [str]. *)
Definition or_empty (s : string) : string :=
  match s with
  | EmptyString => EmptyString
  | _ => s
  end.

(** Truth value of a [str]: the empty string is false. *)
Definition truthy (s : string) : bool :=
  match s with
  | EmptyString => false
  | _ => true
  end.

(** [len(s)] *)
Definition len (s : string) : Z := Z.of_nat (String.length s).

(** [str(n)] for an [int], as an f-string formats it. *)
Definition of_int (n : Z) : string := NilEmpty.string_of_int (Z.to_int n).

End Str.

(** ** Regular expressions: the fragment of [re] the module uses

    Only the truth value of [search]/[match] is ever used by the engine,
    so the matcher decides whether some match exists. *)

Module Re.

Inductive citem : Type :=
| CLit (c : ascii)              (* a literal character in a class *)
| CRange (lo hi : ascii)        (* lo-hi *)
| CSpace                        (* \s *)
| CWord                         (* \w *)
| CDigit.                       (* \d *)

Inductive regex : Type :=
| Eps
| Lit (c : ascii)                         (* a literal character *)
| Dot                                     (* .  (no DOTALL) *)
| Class (negated : bool) (items : list citem)   (* [...] and [^...] *)
| Seq (a b : regex)
| Alt (a b : regex)
| Star (a : regex)
| WordB                                   (* \b *)
| Bol                                     (* ^  (no MULTILINE) *)
| Eol.                                    (* $  (no MULTILINE) *)

Definition Plus (a : regex) : regex := Seq a (Star a).

(** A literal word, character by character. *)
Fixpoint Word (s : string) : regex :=
  match s with
  | EmptyString => Eps
  | String c EmptyString => Lit c
  | String c s' => Seq (Lit c) (Word s')
  end.

Fixpoint Alts (rs : list regex) : regex :=
  match rs with
  | [] => Class false []
  | [r] => r
  | r :: rs' => Alt r (Alts rs')
  end.

Fixpoint Seqs (rs : list regex) : regex :=
  match rs with
  | [] => Eps
  | [r] => r
  | r :: rs' => Seq r (Seqs rs')
  end.

Section Matcher.
(** [icase] is the flag [re.I]. *)
Variable icase : bool.

Definition lit_matches (c x : ascii) : bool :=
  if icase then Ascii.eqb (Char.lower x) (Char.lower c) else Ascii.eqb x c.

(** No pattern of the module puts a range in a case-insensitive
    class, so ranges are compared as they are. *)
Definition citem_matches (i : citem) (x : ascii) : bool :=
  match i with
  | CLit c => lit_matches c x
  | CRange lo hi => Char.between (Char.code lo) (Char.code hi) x
  | CSpace => Char.isspace x
  | CWord => Char.isword x
  | CDigit => Char.isdecimal x
  end.

Definition opt_isword (o : option ascii) : bool :=
  match o with
  | Some c => Char.isword c
  | None => false
  end.

Definition head (s : string) : option ascii :=
  match s with
  | EmptyString => None
  | String c _ => Some c
  end.

(** [prev] is the character before the current position, if any. *)
Definition at_boundary (prev : option ascii) (s : string) : bool :=
  xorb (opt_isword prev) (opt_isword (head s)).

Definition at_end (s : string) : bool :=
  match s with
  | EmptyString => true
  | String c EmptyString => Ascii.eqb c Char.newline
  | _ => false
  end.

Definition is_none {A} (o : option A) : bool :=
  match o with
  | None => true
  | Some _ => false
  end.

(** Does [r] match a prefix of [s] after which [k] accepts?  The
    conditionals stop at the first failure, as a matcher does. *)
Fixpoint run (r : regex) (prev : option ascii) (s : string)
         (k : option ascii -> string -> bool) {struct r} : bool :=
  match r with
  | Eps => k prev s
  | Lit c =>
      match s with
      | String x s' => if lit_matches c x then k (Some x) s' else false
      | EmptyString => false
      end
  | Dot =>
      match s with
      | String x s' => if Ascii.eqb x Char.newline then false else k (Some x) s'
      | EmptyString => false
      end
  | Class negated items =>
      match s with
      | String x s' =>
          if xorb negated (existsb (fun i => citem_matches i x) items)
          then k (Some x) s' else false
      | EmptyString => false
      end
  | Seq a b => run a prev s (fun p' s' => run b p' s' k)
  | Alt a b => if run a prev s k then true else run b prev s k
  | Star a =>
      (fix star (fuel : nat) (prev : option ascii) (s : string) : bool :=
         if k prev s then true
         else
           match fuel with
           | O => false
           | S fuel' =>
               run a prev s
                 (fun p' s' =>
                    if (String.length s' <? String.length s)%nat
                    then star fuel' p' s' else false)
           end) (String.length s) prev s
  | WordB => if at_boundary prev s then k prev s else false
  | Bol => if is_none prev then k prev s else false
  | Eol => if at_end s then k prev s else false
  end.

Definition accept : option ascii -> string -> bool := fun _ _ => true.

(** [bool(pattern.match(s))] *)
Definition matches (r : regex) (s : string) : bool :=
  run r None s accept.

Fixpoint search_from (r : regex) (prev : option ascii) (s : string) : bool :=
  if run r prev s accept then true
  else
    match s with
    | EmptyString => false
    | String c s' => search_from r (Some c) s'
    end.

(** [bool(pattern.search(s))] *)
Definition search (r : regex) (s : string) : bool :=
  search_from r None s.

End Matcher.

End Re.

(** ** Data model ([ddq_validator/models.py]) *)

(** Values that a [details] mapping or a serialized [Finding] holds. *)
#[local] Set Warnings "-register-all".
Inductive pyval : Type :=
| VNone
| VBool (b : bool)
| VInt (n : Z)
| VStr (s : string)
| VDict (d : gmap string pyval).

(** Canonical representation of one DDQ row. *)
Record QuestionRow : Type := mkQuestionRow {
  sheet : string;
  row_idx : Z;
  question_id : option string;
  question_text : string;
  answer_text : string;
  expected_text : string
}.

(** Validation result for one DDQ row.  The first six fields carry the
    names of [QuestionRow]'s with the prefix [f_]. *)
Record Finding : Type := mkFinding {
  f_sheet : string;
  f_row_idx : Z;
  f_question_id : option string;
  f_question_text : string;
  f_answer_text : string;
  f_expected_text : string;
  status : string;
  reason : string;
  details : option (gmap string pyval)
}.

Definition opt_str (o : option string) : pyval :=
  match o with
  | Some s => VStr s
  | None => VNone
  end.

(** [dataclasses.asdict]: one entry per field, under the field's name.
    The copy [asdict] makes of the [details] mapping is the same value. *)
Definition asdict (f : Finding) : gmap string pyval :=
  <["details" := match details f with Some d => VDict d | None => VNone end]>
  (<["reason" := VStr (reason f)]>
  (<["status" := VStr (status f)]>
  (<["expected_text" := VStr (f_expected_text f)]>
  (<["answer_text" := VStr (f_answer_text f)]>
  (<["question_text" := VStr (f_question_text f)]>
  (<["question_id" := opt_str (f_question_id f)]>
  (<["row_idx" := VInt (f_row_idx f)]>
  (<["sheet" := VStr (f_sheet f)]> ∅)))))))).

(** [d.get(k) is None] *)
Definition get_is_none (d : gmap string pyval) (k : string) : bool :=
  match d !! k with
  | None | Some VNone => true
  | Some _ => false
  end.

(** [Finding.to_dict] *)
Definition to_dict (f : Finding) : gmap string pyval :=
  let d := asdict f in
  if get_is_none d "details" then <["details" := VDict ∅]> d else d.

(** ** Compiled patterns ([rules.py], lines 10-27) *)

Record pattern : Type := Pattern {
  pat_regex : Re.regex;
  pat_icase : bool            (* compiled with [re.I] *)
}.

Definition pat_search (p : pattern) (s : string) : bool :=
  Re.search (pat_icase p) (pat_regex p) s.

Definition pat_match (p : pattern) (s : string) : bool :=
  Re.matches (pat_icase p) (pat_regex p) s.

Module Patterns.
Import Re.

Definition bestaetigt : string := "best" +:+ String Char.a_uml "tigt".
Definition bestaetigen : string := "best" +:+ String Char.a_uml "tigen".
Definition erlaeutern : string := "erl" +:+ String Char.a_uml "utern".
Definition beigefuegt : string := "beigef" +:+ String Char.u_uml "gt".

Definition Words (ws : list string) : regex := Alts (map Word ws).
Definition Opt (a : regex) : regex := Alt a Eps.
Definition spaces : regex := Star (Class false [CSpace]).
Definition digit09 : regex := Class false [CRange "0" "9"].
Definition not_at_space : regex := Class true [CLit "@"; CSpace].

(* \b(ja|yes|y|bestaetigt|confirmed)\b *)
Definition YES_PAT : pattern :=
  Pattern (Seqs [WordB; Words ["ja"; "yes"; "y"; bestaetigt; "confirmed"]; WordB]) true.

(* \b(nein|no|n)\b *)
Definition NO_PAT : pattern :=
  Pattern (Seqs [WordB; Words ["nein"; "no"; "n"]; WordB]) true.

(* ^[^@\s]+@[^@\s]+\.[^@\s]+$ *)
Definition EMAIL_PAT : pattern :=
  Pattern (Seqs [Bol; Plus not_at_space; Lit "@"; Plus not_at_space; Lit ".";
                 Plus not_at_space; Eol]) false.

(* [0-9].*[0-9].*[0-9].*[0-9].*[0-9].*[0-9].*[0-9] *)
Definition PHONE_PAT : pattern :=
  Pattern (Seqs [digit09; Star Dot; digit09; Star Dot; digit09; Star Dot;
                 digit09; Star Dot; digit09; Star Dot; digit09; Star Dot;
                 digit09]) false.

(* (https?://|www\.)\S+ *)
Definition URL_PAT : pattern :=
  Pattern (Seq (Alt (Seqs [Word "http"; Opt (Lit "s"); Word "://"]) (Word "www."))
               (Plus (Class true [CSpace]))) true.

(* \b[\w\-.]+\.(pdf|docx|doc|xlsx|xls|pptx|ppt|zip|png|jpg|jpeg|csv)\b *)
Definition FILENAME_PAT : pattern :=
  Pattern (Seqs [WordB; Plus (Class false [CWord; CLit "-"; CLit "."]); Lit ".";
                 Words ["pdf"; "docx"; "doc"; "xlsx"; "xls"; "pptx"; "ppt"; "zip";
                        "png"; "jpg"; "jpeg"; "csv"];
                 WordB]) true.

(* \b(refusal|refuse|decline|not to answer|no answer)\b *)
Definition REFUSAL_PAT : pattern :=
  Pattern (Seqs [WordB;
                 Words ["refusal"; "refuse"; "decline"; "not to answer"; "no answer"];
                 WordB]) true.

(* (signature|signatur|unterschrift|name\s*&\s*position|name\s*and\s*position|
    ort\s*/\s*datum|place\s*/\s*date) *)
Definition SIGNATURE_PAT : pattern :=
  Pattern (Alts [Word "signature"; Word "signatur"; Word "unterschrift";
                 Seqs [Word "name"; spaces; Lit "&"; spaces; Word "position"];
                 Seqs [Word "name"; spaces; Word "and"; spaces; Word "position"];
                 Seqs [Word "ort"; spaces; Lit "/"; spaces; Word "datum"];
                 Seqs [Word "place"; spaces; Lit "/"; spaces; Word "date"]]) true.

(* (see|refer|reference|attached|attachment|annex|section|chapter|appendix|
    siehe|vgl\.|verweis|anhang|beigefuegt|abschnitt|kapitel|ziffer)
   |\b\d+(?:\.\d+){1,}\b *)
Definition REFERENCE_PAT : pattern :=
  Pattern (Alt (Words ["see"; "refer"; "reference"; "attached"; "attachment"; "annex";
                       "section"; "chapter"; "appendix"; "siehe"; "vgl."; "verweis";
                       "anhang"; beigefuegt; "abschnitt"; "kapitel"; "ziffer"])
               (Seqs [WordB; Plus (Class false [CDigit]);
                      Plus (Seq (Lit ".") (Plus (Class false [CDigit]))); WordB]))
          true.

(* \b(beschreiben|erlaeutern|bestaetigen|informieren|detaillieren|teilen)\b, re.I *)
Definition QUESTION_VERBS : pattern :=
  Pattern (Seqs [WordB;
                 Words ["beschreiben"; erlaeutern; bestaetigen; "informieren";
                        "detaillieren"; "teilen"];
                 WordB]) true.

(* \b(beschreiben|erlaeutern|detaillieren)\b, re.I *)
Definition DESCRIPTIVE_VERBS : pattern :=
  Pattern (Seqs [WordB; Words ["beschreiben"; erlaeutern; "detaillieren"]; WordB]) true.

(* [0-9] *)
Definition ANY_DIGIT : pattern := Pattern digit09 false.

(* [A-Za-z] and the six umlauts *)
Definition ANY_LETTER : pattern :=
  Pattern (Class false [CRange "A" "Z"; CRange "a" "z";
                        CLit Char.A_uml; CLit Char.O_uml; CLit Char.U_uml;
                        CLit Char.a_uml; CLit Char.o_uml; CLit Char.u_uml]) false.

End Patterns.
Import Patterns.

(** ** Configuration ([RuleConfig]) *)

Record RuleConfig : Type := mkRuleConfig {
  forbidden_tokens : list string;
  min_len_descriptive : Z
}.

(** [RuleConfig.default()] *)
Definition default : RuleConfig :=
  {| forbidden_tokens :=
       ["n/a"; "n.a"; "na"; "not applicable"; "tbd"; "to be defined"; "later";
        "unknown"; "k.a"; "keine angabe"];
     min_len_descriptive := 20 |}.

(** ** Classifiers and detectors ([rules.py], lines 54-245) *)

Definition looks_like_question (text : string) : bool :=
  let t := Str.strip (Str.or_empty text) in
  if negb (Str.truthy t) then false
  else if Str.startswith_any
            ["bitte"; "please"; "sofern"; "gab"; "wurde"; "hat"; "ist"; "nutzen"; "wird"]
            (Str.lower t) then true
  else if Str.contains "?" t then true
  else if pat_search QUESTION_VERBS t then true
  else false.

Definition looks_like_note (expected question_text : string) : bool :=
  let e := Str.lower (Str.strip (Str.or_empty expected)) in
  let q := Str.lower (Str.strip (Str.or_empty question_text)) in
  if negb (Str.truthy e) then false
  else if Str.startswith_any
            ["please note"; "bitte beachten"; "hinweis"; "note:"; "the following documents"]
            e then true
  else if existsb (String.eqb q) ["prozesse"; "dokumentation"; "outsourcing"]
          && Str.contains_any ["please note"; "bitte"; "note"] e then true
  else false.

Definition is_signature_row (row : QuestionRow) : bool :=
  let q := Str.lower (Str.or_empty (question_text row)) in
  let e := Str.lower (Str.or_empty (expected_text row)) in
  pat_search SIGNATURE_PAT q || pat_search SIGNATURE_PAT e.

Definition is_allgemeiner_sheet (sheet : string) : bool :=
  let s := Str.lower (Str.or_empty sheet) in
  Str.contains "allgemein" s || Str.contains "general" s.

Definition is_fondsmanagement_sheet (sheet : string) : bool :=
  let s := Str.lower (Str.or_empty sheet) in
  Str.contains "fondsmanagement" s || Str.contains "fund management" s.

Definition is_innenrevision_sheet (sheet : string) : bool :=
  let s := Str.lower (Str.or_empty sheet) in
  Str.contains "innenrevision" s.

Definition is_regta_sheet (sheet : string) : bool :=
  let s := Str.lower (Str.or_empty sheet) in
  Str.contains "regta" s.

Definition is_zv_fobu_sheet (sheet : string) : bool :=
  let s := Str.lower (Str.or_empty sheet) in
  Str.contains "zv" s && Str.contains "fobu" s.

Definition is_verwahrstelle_sheet (sheet : string) : bool :=
  let s := Str.lower (Str.or_empty sheet) in
  Str.contains "verwahrstelle" s.

Definition expected_requires_filename (expected : string) : bool :=
  let e := Str.lower (Str.or_empty expected) in
  Str.contains_any ["name of a file"; "name of file"; "dateiname"] e.

Definition expected_requires_number_and_text (expected : string) : bool :=
  let e := Str.lower (Str.or_empty expected) in
  Str.contains "number and text obligatory" e || Str.contains "nummer und text" e.

Definition expected_content_not_relevant (expected : string) : bool :=
  let e := Str.lower (Str.or_empty expected) in
  Str.contains "content not relevant" e || Str.contains "fields must only be filled" e.

Definition expected_disallow_reference (expected : string) : bool :=
  let e := Str.lower (Str.or_empty expected) in
  Str.contains "reference to a document is not acceptable" e
  || Str.contains "reference to another document is not acceptable" e
  || Str.contains "only reference to another document is also not acceptable" e.

Definition expected_disallow_refusal (expected : string) : bool :=
  let e := Str.lower (Str.or_empty expected) in
  Str.contains "refusal is not acceptable" e
  || Str.contains "any sort of refusal is not acceptable" e
  || (Str.contains "not acceptable" e && Str.contains "n/a" e).

Definition looks_like_email (answer : string) : bool :=
  pat_match EMAIL_PAT (Str.strip (Str.or_empty answer)).

Definition looks_like_phone (answer : string) : bool :=
  pat_search PHONE_PAT (Str.or_empty answer).

Definition looks_like_url (answer : string) : bool :=
  let a := Str.strip (Str.or_empty answer) in
  pat_search URL_PAT a
  || (Str.contains "." a && negb (Str.contains " " a) && (4 <=? Str.len a)%Z).

Definition looks_like_filename (answer : string) : bool :=
  pat_search FILENAME_PAT (Str.or_empty answer).

Definition has_number_and_text (answer : string) : bool :=
  let a := Str.strip (Str.or_empty answer) in
  pat_search ANY_DIGIT a && pat_search ANY_LETTER a.

Definition expected_yes_no (expected : string) : option string :=
  let e := Str.lower (Str.or_empty expected) in
  if Str.contains "ja" e && negb (Str.contains "nein" e) then Some "YES"
  else if Str.contains "nein" e && negb (Str.contains "ja" e) then Some "NO"
  else None.

(** Decide whether a row is intended to be answered. *)
Definition should_validate (row : QuestionRow) : bool :=
  let expected := Str.or_empty (expected_text row) in
  if looks_like_note expected (question_text row) then false
  else if is_signature_row row then true
  else if looks_like_question (question_text row) then true
  else
    let e_lower := Str.lower expected in
    if Str.contains "[text]" e_lower then true
    else if Str.contains_any
              ["obligatory"; "not acceptable"; "must"; "fields must only be filled";
               "number and text obligatory"] e_lower then true
    else if negb (Re.is_none (expected_yes_no expected)) then true
    else false.

Definition is_mandatory (row : QuestionRow) : bool :=
  let e := Str.lower (Str.or_empty (expected_text row)) in
  let q := Str.lower (Str.or_empty (question_text row)) in
  if Str.contains "obligatory" e || Str.contains "not acceptable" e
     || Str.contains "must" e then true
  else if Str.truthy (Str.strip e) then true
  else if Str.startswith "name der" q || Str.startswith "e-mail" q
          || Str.startswith "telefon" q then true
  else false.

Definition detect_reference (answer : string) : bool :=
  pat_search REFERENCE_PAT (Str.or_empty answer).

(** The loop of [contains_forbidden]: the first token found in [a]. *)
Fixpoint first_token_in (toks : list string) (a : string) : option string :=
  match toks with
  | [] => None
  | tok :: toks' => if Str.contains tok a then Some tok else first_token_in toks' a
  end.

Definition contains_forbidden (answer : string) (cfg : RuleConfig) : option string :=
  let a := Str.lower (Str.strip (Str.or_empty answer)) in
  if negb (Str.truthy a) then None
  else first_token_in (forbidden_tokens cfg) a.

(** ** The decision cascade ([validate_row], [rules.py] lines 248-559)

    The function is a sequence of conditionals that return early.  Each
    conditional is a [step]: it either returns from [validate_row] or
    falls through to the next one. *)

Inductive step : Type :=
| Return (r : option Finding)
| Fallthrough.

Definition then_step (a b : step) : step :=
  match a with
  | Return r => Return r
  | Fallthrough => b
  end.

Infix ">>" := then_step (at level 61, left associativity).

(** Reaching the end of the function body returns [None]. *)
Definition finish (s : step) : option Finding :=
  match s with
  | Return r => r
  | Fallthrough => None
  end.

(** The constructor call every flagging branch makes: the six row fields
    copied from [row], then status, reason and details. *)
Definition flag (row : QuestionRow) (st rs : string) (dt : gmap string pyval) : Finding :=
  {| f_sheet := sheet row;
     f_row_idx := row_idx row;
     f_question_id := question_id row;
     f_question_text := question_text row;
     f_answer_text := answer_text row;
     f_expected_text := expected_text row;
     status := st;
     reason := rs;
     details := Some dt |}.

(** [if c: return Finding(...)] *)
Definition flag_if (c : bool) (f : Finding) : step :=
  if c then Return (Some f) else Fallthrough.

(** Truth value of an [Optional[str]]. *)
Definition truthy_opt (o : option string) : bool :=
  match o with
  | Some s => Str.truthy s
  | None => false
  end.

Section Cascade.
Variable row : QuestionRow.
Variable cfg : RuleConfig.
Variable answer : string.     (* (row.answer_text or "").strip() *)
Variable expected : string.   (* (row.expected_text or "").strip() *)
Variable mandatory : bool.    (* is_mandatory(row) *)

(* lines 259-273 *)
Definition signature_rule : step :=
  if is_signature_row row then
    let forbidden := contains_forbidden answer cfg in
    if negb (Str.truthy answer) || truthy_opt forbidden then
      Return (Some (flag row "INCOMPLETE" "Signature/name/date is missing."
                      {["expected" := VStr "signature"]}))
    else Return None
  else Fallthrough.

(* lines 275-288 *)
Definition empty_rule : step :=
  if negb (Str.truthy answer) then
    if mandatory then
      Return (Some (flag row "REJECTED" "Mandatory field is empty."
                      {["mandatory" := VBool true]}))
    else Return None
  else Fallthrough.

(* lines 290-302 *)
Definition forbidden_rule : step :=
  let forbidden := contains_forbidden answer cfg in
  match forbidden with
  | Some tok =>
      flag_if (Str.truthy tok && mandatory)
        (flag row "REJECTED"
           ("Answer contains forbidden placeholder: '" +:+ tok +:+ "'.")
           {["forbidden" := VStr tok]})
  | None => Fallthrough
  end.

(* lines 304-315 *)
Definition filename_rule : step :=
  flag_if (expected_requires_filename expected && negb (looks_like_filename answer))
    (flag row "INCOMPLETE" "Expected a filename (e.g., .pdf/.docx) but none found."
       {["expected" := VStr "filename"]}).

(* lines 317-378 *)
Definition allgemeiner_rules : step :=
  if is_allgemeiner_sheet (sheet row) then
    let q_lower := Str.lower (Str.or_empty (question_text row)) in
    let e_lower := Str.lower expected in
    flag_if (expected_requires_number_and_text expected
             && negb (has_number_and_text answer))
      (flag row "INCOMPLETE" "Expected both a number and descriptive text."
         {["expected" := VStr "number+text"]})
    >> (if Str.contains "e-mail" q_lower || Str.contains "email" q_lower
           || Str.contains "e-mail" e_lower
        then flag_if (negb (looks_like_email answer))
               (flag row "INCOMPLETE" "Expected a valid email address."
                  {["expected" := VStr "email"]})
        else Fallthrough)
    >> (if Str.contains "telefon" q_lower || Str.contains "phone" q_lower
           || Str.contains "telefon" e_lower
        then flag_if (negb (looks_like_phone answer))
               (flag row "INCOMPLETE" "Expected a valid phone number."
                  {["expected" := VStr "phone"]})
        else Fallthrough)
    >> (if Str.contains "website" q_lower || Str.contains "web" q_lower
        then flag_if (negb (looks_like_url answer))
               (flag row "INCOMPLETE" "Expected a website/URL."
                  {["expected" := VStr "url"]})
        else Fallthrough)
    >> (if expected_content_not_relevant expected then Return None else Fallthrough)
  else Fallthrough.

Definition reference_only : Finding :=
  flag row "REJECTED"
    "Reference-only answers are not acceptable; provide substantive text."
    {["reference_only" := VBool true]}.

Definition refusal : Finding :=
  flag row "REJECTED"
    "Refusal-style answers are not acceptable for this question."
    {["refusal" := VBool true]}.

(* lines 380-408 *)
Definition fondsmanagement_rules : step :=
  if is_fondsmanagement_sheet (sheet row) then
    (if expected_disallow_reference expected then
       flag_if (detect_reference answer
                && negb (Str.contains "policy" (Str.lower answer)))
         reference_only
     else Fallthrough)
    >> flag_if (expected_disallow_refusal expected && pat_search REFUSAL_PAT answer)
         refusal
  else Fallthrough.

(* lines 410-435 *)
Definition regta_rules : step :=
  if is_regta_sheet (sheet row) then
    flag_if (expected_disallow_reference expected && detect_reference answer)
      reference_only
    >> flag_if (expected_disallow_refusal expected && pat_search REFUSAL_PAT answer)
         refusal
  else Fallthrough.

(* lines 437-462 *)
Definition zv_fobu_rules : step :=
  if is_zv_fobu_sheet (sheet row) then
    flag_if (expected_disallow_reference expected && detect_reference answer)
      reference_only
    >> flag_if (expected_disallow_refusal expected && pat_search REFUSAL_PAT answer)
         refusal
  else Fallthrough.

(* lines 464-489 *)
Definition verwahrstelle_rules : step :=
  if is_verwahrstelle_sheet (sheet row) then
    flag_if (expected_disallow_reference expected && detect_reference answer)
      reference_only
    >> flag_if (expected_disallow_refusal expected && pat_search REFUSAL_PAT answer)
         refusal
  else Fallthrough.

(* lines 491-503 *)
Definition innenrevision_rules : step :=
  if is_innenrevision_sheet (sheet row) then
    flag_if (expected_requires_number_and_text expected
             && negb (has_number_and_text answer))
      (flag row "INCOMPLETE" "Expected both a number and descriptive text."
         {["expected" := VStr "number+text"]})
  else Fallthrough.

(* lines 505-516 *)
Definition reference_rule : step :=
  flag_if (detect_reference answer)
    (flag row "NEEDS_EVIDENCE"
       "Answer references an attachment/section; requires document evidence retrieval."
       {["reference_detected" := VBool true]}).

(* lines 518-542 *)
Definition yes_no_rule : step :=
  let yn := expected_yes_no expected in
  flag_if (bool_decide (yn = Some "YES") && negb (pat_search YES_PAT answer))
    (flag row "INCOMPLETE"
       "Expected a 'Yes/Confirmed' style answer based on model answer."
       {["expected" := VStr "YES"]})
  >> flag_if (bool_decide (yn = Some "NO") && negb (pat_search NO_PAT answer))
       (flag row "INCOMPLETE" "Expected a 'No' style answer based on model answer."
          {["expected" := VStr "NO"]}).

(* lines 544-557 *)
Definition descriptive_rule : step :=
  if Str.contains "[text]" (Str.lower expected)
     || pat_search DESCRIPTIVE_VERBS (question_text row)
  then
    flag_if (Str.len answer <? min_len_descriptive cfg)%Z
      (flag row "INCOMPLETE"
         ("Answer is too short for a descriptive question (min "
          +:+ Str.of_int (min_len_descriptive cfg) +:+ " chars).")
         (<["actual_len" := VInt (Str.len answer)]>
            {["min_len" := VInt (min_len_descriptive cfg)]}))
  else Fallthrough.

Definition cascade : step :=
  signature_rule >> empty_rule >> forbidden_rule >> filename_rule
  >> allgemeiner_rules >> fondsmanagement_rules >> regta_rules >> zv_fobu_rules
  >> verwahrstelle_rules >> innenrevision_rules >> reference_rule >> yes_no_rule
  >> descriptive_rule.

End Cascade.

(** Return a Finding for flagged rows only.  OK rows return None. *)
Definition validate_row (row : QuestionRow) (cfg : RuleConfig) : option Finding :=
  if negb (should_validate row) then None
  else
    let answer := Str.strip (Str.or_empty (answer_text row)) in
    let expected := Str.strip (Str.or_empty (expected_text row)) in
    let mandatory := is_mandatory row in
    finish (cascade row cfg answer expected mandatory).

(** ** The row loop of the command-line driver ([cli.py], lines 52-90) *)

Definition skipped (row : QuestionRow) : Finding :=
  flag row "SKIPPED" "Row is not a question or validation rule does not apply."
    {["validated" := VBool false]}.

Definition passed (row : QuestionRow) : Finding :=
  flag row "OK" "Passed rule checks." {["validated" := VBool true]}.

(** The two lists the loop appends to. *)
Record loop_state : Type := mkLoop {
  findings : list Finding;
  results : list Finding
}.

(** One iteration of [for row in rows]. *)
Definition loop_body (cfg : RuleConfig) (st : loop_state) (row : QuestionRow)
  : loop_state :=
  if negb (should_validate row) then
    {| findings := findings st; results := results st ++ [skipped row] |}
  else
    match validate_row row cfg with
    | Some fnd => {| findings := findings st ++ [fnd]; results := results st ++ [fnd] |}
    | None => {| findings := findings st; results := results st ++ [passed row] |}
    end.

Definition validate_loop (rows : list QuestionRow) : loop_state :=
  let cfg := default in
  fold_left (loop_body cfg) rows {| findings := []; results := [] |}.

(** ** The refiner's skip test ([llm.py], line 31) *)

(** Truth value of a [details] entry. *)
Definition py_truthy (v : pyval) : bool :=
  match v with
  | VNone => false
  | VBool b => b
  | VInt n => negb (n =? 0)%Z
  | VStr s => Str.truthy s
  | VDict d => negb (size d =? 0)%nat
  end.

(** The test by which [llm_refine_findings] leaves a finding alone
    ([llm.py], line 31):
    [f.status == "NEEDS_EVIDENCE" or (f.details or {}).get("reference_detected")]. *)
Definition llm_skips (f : Finding) : bool :=
  String.eqb (status f) "NEEDS_EVIDENCE"
  || match (match details f with Some d => d | None => ∅ end) !! "reference_detected" with
     | Some v => py_truthy v
     | None => false
     end.

(** ** The summary of the report ([report.py], lines 39-46) *)

(** [collections.Counter(xs)]: one more for each occurrence. *)
Definition counter_add (m : gmap string nat) (x : string) : gmap string nat :=
  <[x := S (option.default 0 (m !! x))]> m.

Definition Counter (xs : list string) : gmap string nat :=
  fold_left counter_add xs ∅.

Record summary : Type := mkSummary {
  total_rows : nat;
  total_flagged : nat;
  by_status : gmap string nat
}.

(** The [summary] that [write_report] computes and returns; the files it
    writes are not modelled. *)
Definition write_report_summary (results : list Finding) : summary :=
  let counts := Counter (status <$> results) in
  let flagged_statuses : gset string :=
    filter (fun k => k ∉ ({["OK"; "SKIPPED"]} : gset string)) (dom counts) in
  let total_flagged :=
    sum_list_with snd
      (filter (fun kv : string * nat => kv.1 ∈ flagged_statuses) (map_to_list counts)) in
  {| total_rows := length results;
     total_flagged := total_flagged;
     by_status := counts |}.

(** ** Merging refined findings ([cli.py] lines 92-99, [api.py] lines 43-91) *)

(** The key [(sheet, row_idx, question_id)] that correlates a row with
    its findings. *)
Definition finding_key (f : Finding) : string * Z * option string :=
  (f_sheet f, f_row_idx f, f_question_id f).

Definition row_key (row : QuestionRow) : string * Z * option string :=
  (sheet row, row_idx row, question_id row).

(** [{(f.sheet, f.row_idx, f.question_id): f for f in refined}]: a later
    finding replaces an earlier one with the same key. *)
Definition refined_map (refined : list Finding)
  : gmap (string * Z * option string) Finding :=
  fold_left (fun m f => <[finding_key f := f]> m) refined ∅.

(** [[refined_map.get((r.sheet, r.row_idx, r.question_id), r) for r in results]] *)
Definition merge_refined (refined results : list Finding) : list Finding :=
  (fun r => option.default r (refined_map refined !! finding_key r)) <$> results.

(** [_validate_rows] of [api.py].  The refiner is the external
    [llm_refine_findings]; [llm] stands for the list it returns. *)
Definition _validate_rows (llm : list Finding -> list Finding)
           (rows : list QuestionRow) (use_llm : bool) : list Finding :=
  let st := validate_loop rows in
  if use_llm && negb (bool_decide (length (findings st) = 0%nat))
  then merge_refined (llm (findings st)) (results st)
  else results st.

(** ** Extraction from a workbook ([extract.py], lines 13-71) *)

(** Column mapping for the provided DDQ Excel layout. *)
Record ColumnMap : Type := mkColumnMap {
  qid_col : Z;
  qtext_col : Z;
  answer_col : Z;
  expected_col : Z
}.

(** [ColumnMap()] *)
Definition default_columns : ColumnMap :=
  {| qid_col := 1; qtext_col := 2; answer_col := 3; expected_col := 4 |}.

(** What the loader reads of a worksheet: [ws.max_row], and for the cell
    at row [r] and column [c] either [None] (the cell's value is [None])
    or [str(v)] of its value [v]. *)
Record worksheet : Type := mkWorksheet {
  max_row : Z;
  cell_text : Z -> Z -> option string
}.

(** [norm_str], on what [str(v)] gives. *)
Definition norm_str (v : option string) : string :=
  match v with
  | None => ""
  | Some s => Str.strip s
  end.

(** The body of the loop over the rows of one sheet; [None] stands for
    [continue]. *)
Definition load_row (colmap : ColumnMap) (name : string) (ws : worksheet) (r : Z)
  : option QuestionRow :=
  let qid := norm_str (cell_text ws r (qid_col colmap)) in
  let qtext := norm_str (cell_text ws r (qtext_col colmap)) in
  let answer := norm_str (cell_text ws r (answer_col colmap)) in
  if negb (Str.truthy qtext) && negb (Str.truthy qid) && negb (Str.truthy answer)
  then None
  else Some {| sheet := name;
               row_idx := r;
               question_id := if Str.truthy qid then Some qid else None;
               question_text := qtext;
               answer_text := answer;
               expected_text := "" |}.

Definition load_sheet (colmap : ColumnMap) (max_rows_per_sheet : option Z)
           (named : string * worksheet) : list QuestionRow :=
  let ws := named.2 in
  let last :=
    match max_rows_per_sheet with
    | Some n => Z.min (max_row ws) n
    | None => max_row ws
    end in
  omap (load_row colmap named.1 ws) (seqZ 1 last).

(** [load_questions]; the workbook is the list of its sheets, by name, in
    the order of [wb.sheetnames]. *)
Definition load_questions (wb : list (string * worksheet)) (colmap : option ColumnMap)
           (max_rows_per_sheet : option Z) : list QuestionRow :=
  let colmap := match colmap with Some c => c | None => default_columns end in
  wb ≫= load_sheet colmap max_rows_per_sheet.

(** ** Redaction of rows ([redact.py]) *)

Section Redaction.
(** The three substitutions of [redact_names] ([_NAME_LABEL_RE.sub],
    [_TITLE_RE.sub], [_BY_FROM_RE.sub]) rewrite text; what follows holds
    whatever they rewrite. *)
Variable sub_name_label sub_title sub_by_from : string -> string.

Definition redact_names (text : string) : string :=
  if negb (Str.truthy text) then text
  else sub_by_from (sub_title (sub_name_label text)).

Definition redact_rows (rows : list QuestionRow) : list QuestionRow :=
  (fun row =>
     {| sheet := sheet row;
        row_idx := row_idx row;
        question_id := question_id row;
        question_text := redact_names (question_text row);
        answer_text := redact_names (answer_text row);
        expected_text := redact_names (expected_text row) |}) <$> rows.

End Redaction.

(** ** The engine on objects ([validate_row] called with references)

    Python passes [row] and [cfg] by reference, and both are mutable
    objects.  Here the functions of [rules.py] that take the row or the
    configuration are written once more as the interpreter runs them: on
    a heap, reading the attributes they read and creating the [Finding]
    they create.  A [None] result stands for a reference to no object. *)

Definition loc : Type := nat.

Record heap : Type := mkHeap {
  h_rows : gmap loc QuestionRow;
  h_cfgs : gmap loc RuleConfig;
  h_findings : gmap loc Finding
}.

Definition M (A : Type) : Type := heap -> option (A * heap).

Definition ret {A : Type} (a : A) : M A := fun h => Some (a, h).

Definition bind {A B : Type} (m : M A) (k : A -> M B) : M B :=
  fun h =>
    match m h with
    | Some (a, h') => k a h'
    | None => None
    end.

Notation "'let*' x ':=' m 'in' k" :=
  (bind m (fun x => k)) (at level 10, x name, m at level 100, k at level 200).

(** [row.<attribute>] *)
Definition row_attr {A : Type} (r : loc) (attribute : QuestionRow -> A) : M A :=
  fun h =>
    match h_rows h !! r with
    | Some row => Some (attribute row, h)
    | None => None
    end.

(** [cfg.<attribute>] *)
Definition cfg_attr {A : Type} (c : loc) (attribute : RuleConfig -> A) : M A :=
  fun h =>
    match h_cfgs h !! c with
    | Some cfg => Some (attribute cfg, h)
    | None => None
    end.

(** A new [Finding] object, at an address not in use. *)
Definition new_finding (f : Finding) : M loc :=
  fun h =>
    let l := fresh (dom (h_findings h)) in
    Some (l, {| h_rows := h_rows h;
                h_cfgs := h_cfgs h;
                h_findings := <[l := f]> (h_findings h) |}).

(** What a step of the cascade gives: a returned reference, or nothing. *)
Inductive mstep : Type :=
| MReturn (r : option loc)
| MFallthrough.

Definition then_m (a b : M mstep) : M mstep :=
  let* x := a in
  match x with
  | MReturn r => ret (MReturn r)
  | MFallthrough => b
  end.

Infix ">>>" := then_m (at level 61, left associativity).

(** The first six keyword arguments of every [Finding(...)] call of
    [validate_row]: [sheet=row.sheet, ..., expected_text=row.expected_text],
    evaluated in this order. *)
Definition row_fields_m (r : loc)
  : M (string -> string -> gmap string pyval -> Finding) :=
  let* s := row_attr r sheet in
  let* i := row_attr r row_idx in
  let* qid := row_attr r question_id in
  let* q := row_attr r question_text in
  let* a := row_attr r answer_text in
  let* e := row_attr r expected_text in
  ret (fun st rs dt =>
         {| f_sheet := s; f_row_idx := i; f_question_id := qid;
            f_question_text := q; f_answer_text := a; f_expected_text := e;
            status := st; reason := rs; details := Some dt |}).

(** [Finding(sheet=row.sheet, ..., status=st, reason=rs, details=dt)] *)
Definition flag_m (r : loc) (st rs : string) (dt : gmap string pyval) : M loc :=
  let* mk := row_fields_m r in
  new_finding (mk st rs dt).

(** [if c: return Finding(...)] *)
Definition flag_if_m (c : bool) (mk : M loc) : M mstep :=
  if c then (let* l := mk in ret (MReturn (Some l))) else ret MFallthrough.

Definition is_signature_row_m (r : loc) : M bool :=
  let* q0 := row_attr r question_text in
  let* e0 := row_attr r expected_text in
  let q := Str.lower (Str.or_empty q0) in
  let e := Str.lower (Str.or_empty e0) in
  ret (pat_search SIGNATURE_PAT q || pat_search SIGNATURE_PAT e).

Definition should_validate_m (r : loc) : M bool :=
  let* e0 := row_attr r expected_text in
  let expected := Str.or_empty e0 in
  let* q := row_attr r question_text in
  if looks_like_note expected q then ret false
  else
    let* sig := is_signature_row_m r in
    if sig then ret true
    else
      let* q' := row_attr r question_text in
      if looks_like_question q' then ret true
      else
        let e_lower := Str.lower expected in
        if Str.contains "[text]" e_lower then ret true
        else if Str.contains_any
                  ["obligatory"; "not acceptable"; "must"; "fields must only be filled";
                   "number and text obligatory"] e_lower then ret true
        else if negb (Re.is_none (expected_yes_no expected)) then ret true
        else ret false.

Definition is_mandatory_m (r : loc) : M bool :=
  let* e0 := row_attr r expected_text in
  let* q0 := row_attr r question_text in
  let e := Str.lower (Str.or_empty e0) in
  let q := Str.lower (Str.or_empty q0) in
  if Str.contains "obligatory" e || Str.contains "not acceptable" e
     || Str.contains "must" e then ret true
  else if Str.truthy (Str.strip e) then ret true
  else if Str.startswith "name der" q || Str.startswith "e-mail" q
          || Str.startswith "telefon" q then ret true
  else ret false.

Definition contains_forbidden_m (answer : string) (c : loc) : M (option string) :=
  let a := Str.lower (Str.strip (Str.or_empty answer)) in
  if negb (Str.truthy a) then ret None
  else
    let* toks := cfg_attr c forbidden_tokens in
    ret (first_token_in toks a).

Definition finish_m (s : mstep) : option loc :=
  match s with
  | MReturn l => l
  | MFallthrough => None
  end.

Section CascadeM.
Variable r : loc.             (* row *)
Variable c : loc.             (* cfg *)
Variable answer : string.
Variable expected : string.
Variable mandatory : bool.

(* lines 259-273 *)
Definition signature_rule_m : M mstep :=
  let* sig := is_signature_row_m r in
  if sig then
    let* forbidden := contains_forbidden_m answer c in
    if negb (Str.truthy answer) || truthy_opt forbidden then
      let* l := flag_m r "INCOMPLETE" "Signature/name/date is missing."
                  {["expected" := VStr "signature"]} in
      ret (MReturn (Some l))
    else ret (MReturn None)
  else ret MFallthrough.

(* lines 275-288 *)
Definition empty_rule_m : M mstep :=
  if negb (Str.truthy answer) then
    if mandatory then
      let* l := flag_m r "REJECTED" "Mandatory field is empty."
                  {["mandatory" := VBool true]} in
      ret (MReturn (Some l))
    else ret (MReturn None)
  else ret MFallthrough.

(* lines 290-302 *)
Definition forbidden_rule_m : M mstep :=
  let* forbidden := contains_forbidden_m answer c in
  match forbidden with
  | Some tok =>
      flag_if_m (Str.truthy tok && mandatory)
        (flag_m r "REJECTED"
           ("Answer contains forbidden placeholder: '" +:+ tok +:+ "'.")
           {["forbidden" := VStr tok]})
  | None => ret MFallthrough
  end.

(* lines 304-315 *)
Definition filename_rule_m : M mstep :=
  flag_if_m (expected_requires_filename expected && negb (looks_like_filename answer))
    (flag_m r "INCOMPLETE" "Expected a filename (e.g., .pdf/.docx) but none found."
       {["expected" := VStr "filename"]}).

(* lines 317-378 *)
Definition allgemeiner_rules_m : M mstep :=
  let* s := row_attr r sheet in
  if is_allgemeiner_sheet s then
    let* q0 := row_attr r question_text in
    let q_lower := Str.lower (Str.or_empty q0) in
    let e_lower := Str.lower expected in
    flag_if_m (expected_requires_number_and_text expected
               && negb (has_number_and_text answer))
      (flag_m r "INCOMPLETE" "Expected both a number and descriptive text."
         {["expected" := VStr "number+text"]})
    >>> (if Str.contains "e-mail" q_lower || Str.contains "email" q_lower
            || Str.contains "e-mail" e_lower
         then flag_if_m (negb (looks_like_email answer))
                (flag_m r "INCOMPLETE" "Expected a valid email address."
                   {["expected" := VStr "email"]})
         else ret MFallthrough)
    >>> (if Str.contains "telefon" q_lower || Str.contains "phone" q_lower
            || Str.contains "telefon" e_lower
         then flag_if_m (negb (looks_like_phone answer))
                (flag_m r "INCOMPLETE" "Expected a valid phone number."
                   {["expected" := VStr "phone"]})
         else ret MFallthrough)
    >>> (if Str.contains "website" q_lower || Str.contains "web" q_lower
         then flag_if_m (negb (looks_like_url answer))
                (flag_m r "INCOMPLETE" "Expected a website/URL."
                   {["expected" := VStr "url"]})
         else ret MFallthrough)
    >>> (if expected_content_not_relevant expected then ret (MReturn None)
         else ret MFallthrough)
  else ret MFallthrough.

Definition reference_only_m : M loc :=
  flag_m r "REJECTED"
    "Reference-only answers are not acceptable; provide substantive text."
    {["reference_only" := VBool true]}.

Definition refusal_m : M loc :=
  flag_m r "REJECTED"
    "Refusal-style answers are not acceptable for this question."
    {["refusal" := VBool true]}.

(* lines 380-408 *)
Definition fondsmanagement_rules_m : M mstep :=
  let* s := row_attr r sheet in
  if is_fondsmanagement_sheet s then
    (if expected_disallow_reference expected then
       flag_if_m (detect_reference answer
                  && negb (Str.contains "policy" (Str.lower answer)))
         reference_only_m
     else ret MFallthrough)
    >>> flag_if_m (expected_disallow_refusal expected && pat_search REFUSAL_PAT answer)
          refusal_m
  else ret MFallthrough.

(* lines 410-435 *)
Definition regta_rules_m : M mstep :=
  let* s := row_attr r sheet in
  if is_regta_sheet s then
    flag_if_m (expected_disallow_reference expected && detect_reference answer)
      reference_only_m
    >>> flag_if_m (expected_disallow_refusal expected && pat_search REFUSAL_PAT answer)
          refusal_m
  else ret MFallthrough.

(* lines 437-462 *)
Definition zv_fobu_rules_m : M mstep :=
  let* s := row_attr r sheet in
  if is_zv_fobu_sheet s then
    flag_if_m (expected_disallow_reference expected && detect_reference answer)
      reference_only_m
    >>> flag_if_m (expected_disallow_refusal expected && pat_search REFUSAL_PAT answer)
          refusal_m
  else ret MFallthrough.

(* lines 464-489 *)
Definition verwahrstelle_rules_m : M mstep :=
  let* s := row_attr r sheet in
  if is_verwahrstelle_sheet s then
    flag_if_m (expected_disallow_reference expected && detect_reference answer)
      reference_only_m
    >>> flag_if_m (expected_disallow_refusal expected && pat_search REFUSAL_PAT answer)
          refusal_m
  else ret MFallthrough.

(* lines 491-503 *)
Definition innenrevision_rules_m : M mstep :=
  let* s := row_attr r sheet in
  if is_innenrevision_sheet s then
    flag_if_m (expected_requires_number_and_text expected
               && negb (has_number_and_text answer))
      (flag_m r "INCOMPLETE" "Expected both a number and descriptive text."
         {["expected" := VStr "number+text"]})
  else ret MFallthrough.

(* lines 505-516 *)
Definition reference_rule_m : M mstep :=
  flag_if_m (detect_reference answer)
    (flag_m r "NEEDS_EVIDENCE"
       "Answer references an attachment/section; requires document evidence retrieval."
       {["reference_detected" := VBool true]}).

(* lines 518-542 *)
Definition yes_no_rule_m : M mstep :=
  let yn := expected_yes_no expected in
  flag_if_m (bool_decide (yn = Some "YES") && negb (pat_search YES_PAT answer))
    (flag_m r "INCOMPLETE"
       "Expected a 'Yes/Confirmed' style answer based on model answer."
       {["expected" := VStr "YES"]})
  >>> flag_if_m (bool_decide (yn = Some "NO") && negb (pat_search NO_PAT answer))
        (flag_m r "INCOMPLETE" "Expected a 'No' style answer based on model answer."
           {["expected" := VStr "NO"]}).

(* lines 546-557: [cfg.min_len_descriptive] is read for the comparison,
   then once more for the reason and for the details *)
Definition too_short_m : M mstep :=
  let* m := cfg_attr c min_len_descriptive in
  if (Str.len answer <? m)%Z then
    let* mk := row_fields_m r in
    let* m_reason := cfg_attr c min_len_descriptive in
    let* m_details := cfg_attr c min_len_descriptive in
    let* l := new_finding
                (mk "INCOMPLETE"
                   ("Answer is too short for a descriptive question (min "
                    +:+ Str.of_int m_reason +:+ " chars).")
                   (<["actual_len" := VInt (Str.len answer)]>
                      {["min_len" := VInt m_details]})) in
    ret (MReturn (Some l))
  else ret MFallthrough.

(* lines 544-557: [row.question_text] is read when the first disjunct
   is false *)
Definition descriptive_rule_m : M mstep :=
  if Str.contains "[text]" (Str.lower expected) then too_short_m
  else
    let* q := row_attr r question_text in
    if pat_search DESCRIPTIVE_VERBS q then too_short_m
    else ret MFallthrough.

Definition cascade_m : M mstep :=
  signature_rule_m >>> empty_rule_m >>> forbidden_rule_m >>> filename_rule_m
  >>> allgemeiner_rules_m >>> fondsmanagement_rules_m >>> regta_rules_m
  >>> zv_fobu_rules_m >>> verwahrstelle_rules_m >>> innenrevision_rules_m
  >>> reference_rule_m >>> yes_no_rule_m >>> descriptive_rule_m.

End CascadeM.

(** [validate_row(row, cfg)] with [row] and [cfg] references to objects;
    the result is a reference to a new [Finding], or [None]. *)
Definition validate_row_m (r c : loc) : M (option loc) :=
  let* sv := should_validate_m r in
  if negb sv then ret None
  else
    let* a0 := row_attr r answer_text in
    let answer := Str.strip (Str.or_empty a0) in
    let* e0 := row_attr r expected_text in
    let expected := Str.strip (Str.or_empty e0) in
    let* mandatory := is_mandatory_m r in
    let* s := cascade_m r c answer expected mandatory in
    ret (finish_m s).

(** * Vocabulary of the statements *)

(** The spec's reading of a keyword match: [kw] occurs in [s] once case
    is ignored. *)
Definition icontains (kw s : string) : Prop :=
  exists pre post, Str.lower s = pre +:+ kw +:+ post.

(** What every finding built by a flagging branch looks like. *)
Definition flagged (row : QuestionRow) (f : Finding) : Prop :=
  exists st rs dt,
    f = flag row st rs dt
    /\ (st = "INCOMPLETE" \/ st = "REJECTED" \/ st = "NEEDS_EVIDENCE")
    /\ rs <> ""
    /\ exists k v, dt !! k = Some v.

(** A step that, when it returns a finding, returns such a finding. *)
Definition step_ok (row : QuestionRow) (s : step) : Prop :=
  forall f, s = Return (Some f) -> flagged row f.

(** The finding one iteration appends to [results]. *)
Definition row_result (cfg : RuleConfig) (row : QuestionRow) : Finding :=
  if should_validate row then
    match validate_row row cfg with
    | Some fnd => fnd
    | None => passed row
    end
  else skipped row.

(** Concrete rows, used where a statement is checked on an input. *)
Module Rows.

(** A RegTA row whose template forbids references and whose answer
    points at a policy. *)
Definition regta_policy : QuestionRow :=
  {| sheet := "RegTA"; row_idx := 12; question_id := Some "3.1";
     question_text := "Please describe the escalation process.";
     answer_text := "See policy document";
     expected_text := "Reference to a document is not acceptable" |}.

(** The same row on the fund-management sheet. *)
Definition fonds_policy : QuestionRow :=
  {| sheet := "Fondsmanagement"; row_idx := 12; question_id := Some "3.1";
     question_text := "Please describe the escalation process.";
     answer_text := "See policy document";
     expected_text := "Reference to a document is not acceptable" |}.

(** A guidance line: the expected text is a note. *)
Definition note_row : QuestionRow :=
  {| sheet := "Sheet1"; row_idx := 4; question_id := None;
     question_text := "Prozesse";
     answer_text := "";
     expected_text := "Please note: attach the documents" |}.

(** An obligatory question left unanswered. *)
Definition unanswered : QuestionRow :=
  {| sheet := "Sheet1"; row_idx := 5; question_id := Some "1.2";
     question_text := "Please name the auditor.";
     answer_text := "";
     expected_text := "Field is obligatory" |}.

(** A heading with a reference in the answer column. *)
Definition annex_heading : QuestionRow :=
  {| sheet := "Sheet1"; row_idx := 7; question_id := None;
     question_text := "";
     answer_text := "See attachment Annex 3";
     expected_text := "" |}.

(** A question answered by a reference. *)
Definition annex_question : QuestionRow :=
  {| sheet := "Sheet1"; row_idx := 8; question_id := Some "2.4";
     question_text := "Please describe the process.";
     answer_text := "See attachment Annex 3";
     expected_text := "" |}.

(** A signed signature row. *)
Definition signed : QuestionRow :=
  {| sheet := "Sheet1"; row_idx := 40; question_id := None;
     question_text := "Signature";
     answer_text := "  Jane Doe, CEO ";
     expected_text := "" |}.

End Rows.

(** The keywords by which the general-sheet branch infers an e-mail,
    phone or website field from the question. *)
Definition shape_keywords : list string :=
  ["e-mail"; "email"; "telefon"; "phone"; "website"; "web"].

(** The two checks of step 7 in the spec's words: reject a detected
    reference where the template disallows one, then reject a detected
    refusal where the template disallows one.  [policy_exempt] tells
    whether an answer that mentions "policy" escapes the first check. *)
Definition disallow_checks (policy_exempt : bool) (row : QuestionRow)
           (answer expected : string) : step :=
  flag_if (expected_disallow_reference expected && detect_reference answer
           && negb (policy_exempt && Str.contains "policy" (Str.lower answer)))
    (reference_only row)
  >> flag_if (expected_disallow_refusal expected && pat_search REFUSAL_PAT answer)
       (refusal row).

(** The three later branches, each with the classifier that guards it. *)
Definition later_branches
  : list ((string -> bool) * (QuestionRow -> string -> string -> step)) :=
  [(is_regta_sheet, regta_rules); (is_zv_fobu_sheet, zv_fobu_rules);
   (is_verwahrstelle_sheet, verwahrstelle_rules)].

(** The catalogue of findings: every (status, reason, details) triple
    the cascade can build, with what the cascade has established when it
    builds it. *)
Inductive verdict (row : QuestionRow) (cfg : RuleConfig) (answer expected : string)
  : string -> string -> gmap string pyval -> Prop :=
| V_signature :
    is_signature_row row = true ->
    verdict row cfg answer expected
      "INCOMPLETE" "Signature/name/date is missing." {["expected" := VStr "signature"]}
| V_mandatory :
    answer = "" ->
    verdict row cfg answer expected
      "REJECTED" "Mandatory field is empty." {["mandatory" := VBool true]}
| V_forbidden tok :
    In tok (forbidden_tokens cfg) -> tok <> "" ->
    Str.contains tok (Str.lower (Str.strip answer)) = true ->
    verdict row cfg answer expected
      "REJECTED" ("Answer contains forbidden placeholder: '" +:+ tok +:+ "'.")
      {["forbidden" := VStr tok]}
| V_filename :
    expected_requires_filename expected = true ->
    verdict row cfg answer expected
      "INCOMPLETE" "Expected a filename (e.g., .pdf/.docx) but none found."
      {["expected" := VStr "filename"]}
| V_number_text :
    expected_requires_number_and_text expected = true ->
    is_allgemeiner_sheet (sheet row) = true \/ is_innenrevision_sheet (sheet row) = true ->
    verdict row cfg answer expected
      "INCOMPLETE" "Expected both a number and descriptive text."
      {["expected" := VStr "number+text"]}
| V_email :
    is_allgemeiner_sheet (sheet row) = true ->
    verdict row cfg answer expected
      "INCOMPLETE" "Expected a valid email address." {["expected" := VStr "email"]}
| V_phone :
    is_allgemeiner_sheet (sheet row) = true ->
    verdict row cfg answer expected
      "INCOMPLETE" "Expected a valid phone number." {["expected" := VStr "phone"]}
| V_url :
    is_allgemeiner_sheet (sheet row) = true ->
    verdict row cfg answer expected
      "INCOMPLETE" "Expected a website/URL." {["expected" := VStr "url"]}
| V_reference_only :
    expected_disallow_reference expected = true ->
    detect_reference answer = true ->
    verdict row cfg answer expected
      "REJECTED" "Reference-only answers are not acceptable; provide substantive text."
      {["reference_only" := VBool true]}
| V_refusal :
    expected_disallow_refusal expected = true ->
    verdict row cfg answer expected
      "REJECTED" "Refusal-style answers are not acceptable for this question."
      {["refusal" := VBool true]}
| V_reference :
    detect_reference answer = true ->
    verdict row cfg answer expected
      "NEEDS_EVIDENCE"
      "Answer references an attachment/section; requires document evidence retrieval."
      {["reference_detected" := VBool true]}
| V_yes :
    expected_yes_no expected = Some "YES" ->
    detect_reference answer = false ->
    verdict row cfg answer expected
      "INCOMPLETE" "Expected a 'Yes/Confirmed' style answer based on model answer."
      {["expected" := VStr "YES"]}
| V_no :
    expected_yes_no expected = Some "NO" ->
    detect_reference answer = false ->
    verdict row cfg answer expected
      "INCOMPLETE" "Expected a 'No' style answer based on model answer."
      {["expected" := VStr "NO"]}
| V_short :
    (Str.len answer < min_len_descriptive cfg)%Z ->
    detect_reference answer = false ->
    verdict row cfg answer expected
      "INCOMPLETE"
      ("Answer is too short for a descriptive question (min "
       +:+ Str.of_int (min_len_descriptive cfg) +:+ " chars).")
      (<["actual_len" := VInt (Str.len answer)]>
         {["min_len" := VInt (min_len_descriptive cfg)]}).

(** [s] holds white space only. *)
Fixpoint all_space (s : string) : bool :=
  match s with
  | EmptyString => true
  | String c s' => Char.isspace c && all_space s'
  end.

(** The sum of the counts of the keys that satisfy [P]. *)
Definition weight (P : string -> Prop) `{!forall k, Decision (P k)}
           (m : gmap string nat) : nat :=
  sum_list_with snd (filter (fun kv : string * nat => P kv.1) (map_to_list m)).

(** A status is flagged when it is neither OK nor SKIPPED. *)
Definition flagged_status (s : string) : Prop :=
  s ∉ ({["OK"; "SKIPPED"]} : gset string).

Global Instance flagged_status_dec s : Decision (flagged_status s).
Proof. unfold flagged_status. apply _. Defined.

(** A small workbook. *)
Module Demo.

(** A sheet with one filled row between two empty ones. *)
Definition ws : worksheet :=
  {| max_row := 3;
     cell_text := fun r c =>
       if (r =? 2)%Z then
         if (c =? 1)%Z then Some "1.1"
         else if (c =? 2)%Z then Some " Gab es Beanstandungen? "
         else if (c =? 3)%Z then Some "siehe Anhang 2"
         else None
       else None |}.

Definition wb : list (string * worksheet) := [("Allgemeines", ws)].

Definition row : QuestionRow :=
  {| sheet := "Allgemeines"; row_idx := 2; question_id := Some "1.1";
     question_text := "Gab es Beanstandungen?"; answer_text := "siehe Anhang 2";
     expected_text := "" |}.

(** A second sheet with two filled rows; its second row has the row
    number and the question id of the filled row of [ws]. *)
Definition ws2 : worksheet :=
  {| max_row := 2;
     cell_text := fun r c =>
       if (r =? 1)%Z then
         if (c =? 2)%Z then Some "Unterschrift"
         else None
       else if (r =? 2)%Z then
         if (c =? 1)%Z then Some "1.1"
         else if (c =? 2)%Z then Some "Bitte beschreiben Sie den Prozess."
         else if (c =? 3)%Z then Some "tbd"
         else None
       else None |}.

(** A workbook of two sheets. *)
Definition wb2 : list (string * worksheet) := [("Allgemeines", ws); ("RegTA", ws2)].

End Demo.

(** The keywords of the first alternative of [REFERENCE_PAT]. *)
Definition reference_keywords : list string :=
  ["see"; "refer"; "reference"; "attached"; "attachment"; "annex"; "section";
   "chapter"; "appendix"; "siehe"; "vgl."; "verweis"; "anhang"; beigefuegt;
   "abschnitt"; "kapitel"; "ziffer"].

(** What a match means.  [matches_to icase r prev s prev' s']: the
    expression [r] matches a prefix of [s], preceded by [prev], and
    leaves [s'], preceded by [prev']. *)
Inductive matches_to (icase : bool)
  : Re.regex -> option ascii -> string -> option ascii -> string -> Prop :=
| M_eps p s : matches_to icase Re.Eps p s p s
| M_lit c x p s :
    Re.lit_matches icase c x = true ->
    matches_to icase (Re.Lit c) p (String x s) (Some x) s
| M_dot x p s :
    Ascii.eqb x Char.newline = false ->
    matches_to icase Re.Dot p (String x s) (Some x) s
| M_class negated items x p s :
    xorb negated (existsb (fun i => Re.citem_matches icase i x) items) = true ->
    matches_to icase (Re.Class negated items) p (String x s) (Some x) s
| M_seq a b p s p1 s1 p2 s2 :
    matches_to icase a p s p1 s1 -> matches_to icase b p1 s1 p2 s2 ->
    matches_to icase (Re.Seq a b) p s p2 s2
| M_alt_l a b p s p' s' :
    matches_to icase a p s p' s' -> matches_to icase (Re.Alt a b) p s p' s'
| M_alt_r a b p s p' s' :
    matches_to icase b p s p' s' -> matches_to icase (Re.Alt a b) p s p' s'
| M_star_nil a p s : matches_to icase (Re.Star a) p s p s
| M_star_cons a p s p1 s1 p2 s2 :
    matches_to icase a p s p1 s1 -> matches_to icase (Re.Star a) p1 s1 p2 s2 ->
    matches_to icase (Re.Star a) p s p2 s2
| M_wordb p s :
    Re.at_boundary p s = true -> matches_to icase Re.WordB p s p s
| M_bol s : matches_to icase Re.Bol None s None s
| M_eol p s : Re.at_end s = true -> matches_to icase Re.Eol p s p s.

(** Every character of [s] satisfies [P]. *)
Fixpoint all_chars (P : ascii -> bool) (s : string) : bool :=
  match s with
  | EmptyString => true
  | String c s' => P c && all_chars P s'
  end.

(** A character other than "@" and white space. *)
Definition email_char (c : ascii) : bool :=
  negb (Ascii.eqb c "@") && negb (Char.isspace c).

(** The number of characters 0-9 in [s]. *)
Fixpoint count_digits (s : string) : nat :=
  match s with
  | EmptyString => 0
  | String c s' => (if Char.between 48 57 c then 1 else 0) + count_digits s'
  end.

(** ** Running the engine on a heap *)

(** The heap holds the row at [r] and the configuration at [c]. *)
Definition holds (r c : loc) (row : QuestionRow) (cfg : RuleConfig) (h : heap) : Prop :=
  h_rows h !! r = Some row /\ h_cfgs h !! c = Some cfg.

(** The heap after one more [Finding] was created. *)
Definition with_finding (f : Finding) (h : heap) : heap :=
  {| h_rows := h_rows h;
     h_cfgs := h_cfgs h;
     h_findings := <[fresh (dom (h_findings h)) := f]> (h_findings h) |}.

(** A computation that only reads: it gives [a] and leaves the heap. *)
Definition reads {A : Type} (r c : loc) (row : QuestionRow) (cfg : RuleConfig)
    (m : M A) (a : A) : Prop :=
  forall h, holds r c row cfg h -> m h = Some (a, h).

(** What a step of the pure cascade amounts to on a heap. *)
Definition outcome (s : step) (h : heap) : mstep * heap :=
  match s with
  | Fallthrough => (MFallthrough, h)
  | Return None => (MReturn None, h)
  | Return (Some f) => (MReturn (Some (fresh (dom (h_findings h)))), with_finding f h)
  end.

Definition runs_as (r c : loc) (row : QuestionRow) (cfg : RuleConfig)
    (m : M mstep) (s : step) : Prop :=
  forall h, holds r c row cfg h -> m h = Some (outcome s h).

(** What a result of the pure [validate_row] amounts to on a heap. *)
Definition returned (res : option Finding) (h : heap) : option loc * heap :=
  match res with
  | None => (None, h)
  | Some f => (Some (fresh (dom (h_findings h))), with_finding f h)
  end.

Module Heaps.
(** One unanswered row and the default configuration, no finding yet. *)
Definition start : heap :=
  {| h_rows := {[ 0 := Rows.unanswered ]};
     h_cfgs := {[ 0 := default ]};
     h_findings := ∅ |}.
End Heaps.

(** * Properties *)

(** ** Strings *)

Lemma or_empty_id (s : string) : Str.or_empty s = s.
Proof. by destruct s. Qed.

Lemma lstrip_idem (s : string) : Str.lstrip (Str.lstrip s) = Str.lstrip s.
Proof.
  induction s as [|c s IH]; [done|].
  simpl. destruct (Char.isspace c) eqn:Hc; [done|].
  simpl. by rewrite Hc.
Qed.

Lemma rstrip_idem (s : string) : Str.rstrip (Str.rstrip s) = Str.rstrip s.
Proof.
  induction s as [|c s IH]; [done|].
  simpl. destruct (Str.rstrip s) as [|d r] eqn:Hr.
  - destruct (Char.isspace c) eqn:Hc; [done|]. simpl. by rewrite Hc.
  - change (Str.rstrip (String c (String d r)))
      with (match Str.rstrip (String d r) with
            | EmptyString => if Char.isspace c then EmptyString else String c EmptyString
            | String a b => String c (String a b)
            end).
    by rewrite IH.
Qed.

Lemma rstrip_lstrip_fixed (t : string) :
  Str.rstrip t = t -> Str.rstrip (Str.lstrip t) = Str.lstrip t.
Proof.
  induction t as [|c t IH]; [done|].
  intros H. simpl. destruct (Char.isspace c) eqn:Hc; [|done].
  apply IH. simpl in H. destruct (Str.rstrip t) as [|d r] eqn:Hr.
  - rewrite Hc in H. discriminate.
  - by injection H.
Qed.

Lemma strip_idem (s : string) : Str.strip (Str.strip s) = Str.strip s.
Proof.
  unfold Str.strip.
  rewrite (rstrip_lstrip_fixed (Str.rstrip s)) by apply rstrip_idem.
  apply lstrip_idem.
Qed.

Lemma strip_empty : Str.strip "" = "".
Proof. reflexivity. Qed.

Lemma truthy_false (s : string) : Str.truthy s = false <-> s = "".
Proof. destruct s; simpl; split; congruence. Qed.

Lemma first_token_in_none (toks : list string) (a : string) :
  (forall tok, In tok toks -> Str.contains tok a = false) ->
  first_token_in toks a = None.
Proof.
  induction toks as [|t toks IH]; [done|].
  intros H. simpl. rewrite (H t) by (by left).
  apply IH. intros tok Hin. apply H. by right.
Qed.

(** [startswith] and [in] against their meaning on concatenations. *)
Lemma append_cons (c : ascii) (s t : string) :
  String c s +:+ t = String c (s +:+ t).
Proof. reflexivity. Qed.

Lemma append_nil (t : string) : "" +:+ t = t.
Proof. reflexivity. Qed.

Lemma startswith_spec (p s : string) :
  Str.startswith p s = true <-> exists post, s = p +:+ post.
Proof.
  unfold Str.startswith. revert s.
  induction p as [|c p IH]; intros s.
  - destruct s; simpl; split; eauto.
  - destruct s as [|d s]; simpl.
    + split; [done|]. intros [post H]. rewrite append_cons in H. discriminate.
    + destruct (Ascii.ascii_dec c d) as [->|Hne].
      * rewrite IH. split; intros [post H]; exists post;
          rewrite append_cons in *; congruence.
      * split; [done|]. intros [post H]. rewrite append_cons in H. congruence.
Qed.

Lemma contains_nil (sub : string) :
  Str.contains sub "" = Str.startswith sub "" || false.
Proof. reflexivity. Qed.

Lemma contains_cons (sub : string) (c : ascii) (s : string) :
  Str.contains sub (String c s) = Str.startswith sub (String c s) || Str.contains sub s.
Proof. reflexivity. Qed.

Lemma contains_spec (sub s : string) :
  Str.contains sub s = true <-> exists pre post, s = pre +:+ sub +:+ post.
Proof.
  induction s as [|c s IH].
  - rewrite contains_nil, orb_false_r, startswith_spec. split.
    + intros [post H]. by exists "", post.
    + intros [[|d pre] [post H]]; [by exists post|].
      rewrite append_cons in H. discriminate.
  - rewrite contains_cons, orb_true_iff, startswith_spec, IH. split.
    + intros [[post H]|(pre & post & H)].
      * by exists "", post.
      * exists (String c pre), post. rewrite append_cons. by rewrite H.
    + intros [[|d pre] [post H]].
      * left. by exists post.
      * right. exists pre, post. rewrite append_cons in H. congruence.
Qed.

Lemma contains_lower_icontains (kw s : string) :
  Str.contains kw (Str.lower (Str.or_empty s)) = true <-> icontains kw s.
Proof. rewrite or_empty_id. apply contains_spec. Qed.

(** ** Steps of the cascade *)

Lemma step_ok_fallthrough row : step_ok row Fallthrough.
Proof. intros f H. discriminate. Qed.

Lemma step_ok_pass row : step_ok row (Return None).
Proof. intros f H. discriminate. Qed.

Lemma step_ok_then row a b : step_ok row a -> step_ok row b -> step_ok row (a >> b).
Proof. intros Ha Hb. destruct a; simpl; auto. Qed.

Lemma step_ok_flag row st rs dt :
  st = "INCOMPLETE" \/ st = "REJECTED" \/ st = "NEEDS_EVIDENCE" ->
  rs <> "" ->
  (exists k v, dt !! k = Some v) ->
  step_ok row (Return (Some (flag row st rs dt))).
Proof. intros Hst Hrs Hdt f [= <-]. by exists st, rs, dt. Qed.

Lemma step_ok_flag_if row c st rs dt :
  st = "INCOMPLETE" \/ st = "REJECTED" \/ st = "NEEDS_EVIDENCE" ->
  rs <> "" ->
  (exists k v, dt !! k = Some v) ->
  step_ok row (flag_if c (flag row st rs dt)).
Proof.
  intros. destruct c; simpl; [by apply step_ok_flag | apply step_ok_fallthrough].
Qed.

Lemma singleton_has_tag (k : string) (v : pyval) :
  exists k' v', ({[k := v]} : gmap string pyval) !! k' = Some v'.
Proof. exists k, v. apply lookup_singleton_eq. Qed.

Lemma insert_has_tag (k : string) (v : pyval) (m : gmap string pyval) :
  exists k' v', <[k := v]> m !! k' = Some v'.
Proof. exists k, v. apply lookup_insert_eq. Qed.

Ltac solve_step :=
  repeat first
    [ apply step_ok_fallthrough
    | apply step_ok_pass
    | apply step_ok_then
    | apply step_ok_flag_if; [tauto | discriminate | first [apply singleton_has_tag | apply insert_has_tag]]
    | apply step_ok_flag; [tauto | discriminate | first [apply singleton_has_tag | apply insert_has_tag]]
    | match goal with |- step_ok _ (if ?c then _ else _) => destruct c end
    | match goal with |- step_ok _ (match ?c with _ => _ end) => destruct c end ].

Lemma cascade_ok row cfg answer expected mandatory :
  step_ok row (cascade row cfg answer expected mandatory).
Proof.
  unfold cascade, signature_rule, empty_rule, forbidden_rule, filename_rule,
    allgemeiner_rules, fondsmanagement_rules, regta_rules, zv_fobu_rules,
    verwahrstelle_rules, innenrevision_rules, reference_rule, yes_no_rule,
    descriptive_rule, reference_only, refusal.
  cbv zeta.
  solve_step.
Qed.

Lemma validate_row_flagged row cfg f :
  validate_row row cfg = Some f -> flagged row f.
Proof.
  unfold validate_row. destruct (negb (should_validate row)); [discriminate|].
  cbv zeta. intros H.
  destruct (cascade _ _ _ _ _) as [r|] eqn:E; simpl in H; [|discriminate].
  subst r. exact (cascade_ok _ _ _ _ _ _ E).
Qed.

(** ** Serialization of a finding *)

(** C9. For every [Finding], also one built with [details=None], [to_dict]
    yields exactly the nine field names as keys, each field under its own
    name, and under ["details"] a mapping that is never [None]: the empty
    mapping when [details] was [None], the original mapping otherwise. *)
Theorem to_dict_fields (f : Finding) :
  to_dict f !! "sheet" = Some (VStr (f_sheet f))
  /\ to_dict f !! "row_idx" = Some (VInt (f_row_idx f))
  /\ to_dict f !! "question_id" = Some (opt_str (f_question_id f))
  /\ to_dict f !! "question_text" = Some (VStr (f_question_text f))
  /\ to_dict f !! "answer_text" = Some (VStr (f_answer_text f))
  /\ to_dict f !! "expected_text" = Some (VStr (f_expected_text f))
  /\ to_dict f !! "status" = Some (VStr (status f))
  /\ to_dict f !! "reason" = Some (VStr (reason f))
  /\ to_dict f !! "details"
     = Some (VDict (match details f with Some d => d | None => ∅ end))
  /\ dom (to_dict f)
     = list_to_set ["sheet"; "row_idx"; "question_id"; "question_text"; "answer_text";
                    "expected_text"; "status"; "reason"; "details"].
Proof.
  unfold to_dict, asdict, get_is_none.
  rewrite lookup_insert_eq.
  destruct (details f) as [d|]; cbv iota beta zeta;
    repeat split;
    try (by simplify_map_eq);
    rewrite ?dom_insert_L, dom_empty_L; simpl; set_solver.
Qed.

(** ** The row loop *)

Lemma loop_body_results cfg st row :
  results (loop_body cfg st row) = (results st ++ [row_result cfg row])%list.
Proof.
  unfold loop_body, row_result.
  destruct (should_validate row); simpl; [|done].
  by destruct (validate_row row cfg).
Qed.

Lemma fold_loop_results cfg rows st :
  results (fold_left (loop_body cfg) rows st)
  = (results st ++ map (row_result cfg) rows)%list.
Proof.
  revert st. induction rows as [|row rows IH]; intros st; simpl.
  - by rewrite app_nil_r.
  - rewrite IH, loop_body_results, <- app_assoc. done.
Qed.

(** C5. The loop's output has the length of the input and, at every
    position [i], holds the result for the [i]-th row: when
    [should_validate] is false, the placeholder with status SKIPPED that
    carries the row's six fields; when it is true and [validate_row]
    returns none, the placeholder with status OK that carries the row's
    six fields; and else the finding [validate_row] returned. *)
Theorem validate_loop_results (rows : list QuestionRow) :
  length (results (validate_loop rows)) = length rows
  /\ forall i : nat,
       results (validate_loop rows) !! i
       = (fun row =>
            if should_validate row then
              match validate_row row default with
              | Some fnd => fnd
              | None =>
                  {| f_sheet := sheet row;
                     f_row_idx := row_idx row;
                     f_question_id := question_id row;
                     f_question_text := question_text row;
                     f_answer_text := answer_text row;
                     f_expected_text := expected_text row;
                     status := "OK";
                     reason := "Passed rule checks.";
                     details := Some {["validated" := VBool true]} |}
              end
            else
              {| f_sheet := sheet row;
                 f_row_idx := row_idx row;
                 f_question_id := question_id row;
                 f_question_text := question_text row;
                 f_answer_text := answer_text row;
                 f_expected_text := expected_text row;
                 status := "SKIPPED";
                 reason := "Row is not a question or validation rule does not apply.";
                 details := Some {["validated" := VBool false]} |}) <$> rows !! i.
Proof.
  unfold validate_loop. cbv zeta. rewrite fold_loop_results. simpl. split.
  - apply length_map.
  - intros i.
    change (map (row_result default) rows) with (row_result default <$> rows).
    rewrite list_lookup_fmap. by destruct (rows !! i).
Qed.

(** ** Findings returned by [validate_row] *)

(** C10. Any finding [validate_row] returns carries the row's sheet,
    row_idx, question_id, question_text, answer_text and expected_text as
    they are in the input row, untrimmed. *)
Theorem validate_row_keeps_row (row : QuestionRow) (cfg : RuleConfig) (f : Finding) :
  validate_row row cfg = Some f ->
  f_sheet f = sheet row
  /\ f_row_idx f = row_idx row
  /\ f_question_id f = question_id row
  /\ f_question_text f = question_text row
  /\ f_answer_text f = answer_text row
  /\ f_expected_text f = expected_text row.
Proof.
  intros H. destruct (validate_row_flagged _ _ _ H) as (st & rs & dt & Hf & _).
  subst f.
  by repeat split.
Qed.

Lemma validate_row_keeps_row_witness :
  validate_row Rows.unanswered default
  = Some (flag Rows.unanswered "REJECTED" "Mandatory field is empty."
            {["mandatory" := VBool true]})
  /\ f_answer_text (flag Rows.unanswered "REJECTED" "Mandatory field is empty."
                      {["mandatory" := VBool true]})
     = answer_text Rows.unanswered.
Proof.
  assert (H : validate_row Rows.unanswered default
              = Some (flag Rows.unanswered "REJECTED" "Mandatory field is empty."
                        {["mandatory" := VBool true]}))
    by (vm_compute; reflexivity).
  split; [exact H|].
  destruct (validate_row_keeps_row _ _ _ H) as (_ & _ & _ & _ & Ha & _).
  exact Ha.
Defined.

(** ** Two runs of [validate_row] on the same objects

    Every function of [rules.py] that takes the row or the configuration
    only reads them, and [validate_row] on the heap runs as the pure
    cascade does on their fields. *)

Section OnHeap.
Variables (r c : loc) (row : QuestionRow) (cfg : RuleConfig).

Lemma reads_ret {A : Type} (a : A) : reads r c row cfg (ret a) a.
Proof. by intros h _. Qed.

Lemma reads_bind {A B : Type} (m : M A) (a : A) (k : A -> M B) (b : B) :
  reads r c row cfg m a -> reads r c row cfg (k a) b -> reads r c row cfg (bind m k) b.
Proof.
  intros Hm Hk h Hh. unfold bind. rewrite (Hm h Hh). by apply Hk.
Qed.

Lemma reads_row_attr {A : Type} (attribute : QuestionRow -> A) :
  reads r c row cfg (row_attr r attribute) (attribute row).
Proof. intros h [Hr _]. unfold row_attr. by rewrite Hr. Qed.

Lemma reads_cfg_attr {A : Type} (attribute : RuleConfig -> A) :
  reads r c row cfg (cfg_attr c attribute) (attribute cfg).
Proof. intros h [_ Hc]. unfold cfg_attr. by rewrite Hc. Qed.

Lemma reads_if {A : Type} (b : bool) (m1 m2 : M A) (a1 a2 : A) :
  reads r c row cfg m1 a1 -> reads r c row cfg m2 a2 ->
  reads r c row cfg (if b then m1 else m2) (if b then a1 else a2).
Proof. by destruct b. Qed.

Lemma is_signature_row_reads : reads r c row cfg (is_signature_row_m r) (is_signature_row row).
Proof.
  unfold is_signature_row_m.
  eapply reads_bind; [apply reads_row_attr|].
  eapply reads_bind; [apply reads_row_attr|].
  apply reads_ret.
Qed.

Lemma should_validate_reads : reads r c row cfg (should_validate_m r) (should_validate row).
Proof.
  unfold should_validate_m, should_validate.
  eapply reads_bind; [apply reads_row_attr|].
  eapply reads_bind; [apply reads_row_attr|]. cbv zeta.
  apply reads_if; [apply reads_ret|].
  eapply reads_bind; [apply is_signature_row_reads|].
  apply reads_if; [apply reads_ret|].
  eapply reads_bind; [apply reads_row_attr|].
  repeat (apply reads_if; [apply reads_ret|]).
  apply reads_ret.
Qed.

Lemma is_mandatory_reads : reads r c row cfg (is_mandatory_m r) (is_mandatory row).
Proof.
  unfold is_mandatory_m, is_mandatory.
  eapply reads_bind; [apply reads_row_attr|].
  eapply reads_bind; [apply reads_row_attr|]. cbv zeta.
  repeat (apply reads_if; [apply reads_ret|]).
  apply reads_ret.
Qed.

Lemma contains_forbidden_reads (answer : string) :
  reads r c row cfg (contains_forbidden_m answer c) (contains_forbidden answer cfg).
Proof.
  unfold contains_forbidden_m, contains_forbidden. cbv zeta.
  apply reads_if; [apply reads_ret|].
  eapply reads_bind; [apply reads_cfg_attr|].
  apply reads_ret.
Qed.

Lemma row_fields_reads : reads r c row cfg (row_fields_m r) (flag row).
Proof.
  unfold row_fields_m.
  do 6 (eapply reads_bind; [apply reads_row_attr|]).
  apply reads_ret.
Qed.

Lemma runs_bind {A : Type} (m : M A) (a : A) (k : A -> M mstep) (s : step) :
  reads r c row cfg m a -> runs_as r c row cfg (k a) s -> runs_as r c row cfg (bind m k) s.
Proof.
  intros Hm Hk h Hh. unfold bind. rewrite (Hm h Hh). by apply Hk.
Qed.

Lemma runs_fallthrough : runs_as r c row cfg (ret MFallthrough) Fallthrough.
Proof. by intros h _. Qed.

Lemma runs_return_none : runs_as r c row cfg (ret (MReturn None)) (Return None).
Proof. by intros h _. Qed.

Lemma runs_new_finding (f : Finding) :
  runs_as r c row cfg (let* l := new_finding f in ret (MReturn (Some l))) (Return (Some f)).
Proof. by intros h _. Qed.

Lemma runs_flag (st rs : string) (dt : gmap string pyval) :
  runs_as r c row cfg (let* l := flag_m r st rs dt in ret (MReturn (Some l)))
          (Return (Some (flag row st rs dt))).
Proof.
  intros h Hh. unfold bind, flag_m, bind.
  by rewrite (row_fields_reads h Hh).
Qed.

Lemma runs_flag_if (b : bool) (st rs : string) (dt : gmap string pyval) :
  runs_as r c row cfg (flag_if_m b (flag_m r st rs dt)) (flag_if b (flag row st rs dt)).
Proof.
  unfold flag_if_m, flag_if. destruct b; [apply runs_flag | apply runs_fallthrough].
Qed.

Lemma runs_if (b : bool) (m1 m2 : M mstep) (s1 s2 : step) :
  runs_as r c row cfg m1 s1 -> runs_as r c row cfg m2 s2 ->
  runs_as r c row cfg (if b then m1 else m2) (if b then s1 else s2).
Proof. by destruct b. Qed.

Lemma runs_then (a b : M mstep) (s t : step) :
  runs_as r c row cfg a s -> runs_as r c row cfg b t -> runs_as r c row cfg (a >>> b) (s >> t).
Proof.
  intros Ha Hb h Hh. unfold then_m, bind. rewrite (Ha h Hh).
  destruct s as [[f|]|]; simpl; [done | done | by apply Hb].
Qed.

Ltac run :=
  repeat first
    [ apply runs_fallthrough
    | apply runs_return_none
    | apply runs_flag_if
    | apply runs_flag
    | apply runs_then
    | apply runs_if
    | eapply runs_bind; [apply reads_row_attr|]
    | eapply runs_bind; [apply reads_cfg_attr|]
    | eapply runs_bind; [apply is_signature_row_reads|]
    | eapply runs_bind; [apply contains_forbidden_reads|] ].

Section Rules.
Variables (answer expected : string) (mandatory : bool).

Lemma signature_rule_runs :
  runs_as r c row cfg (signature_rule_m r c answer) (signature_rule row cfg answer).
Proof. unfold signature_rule_m, signature_rule. cbv zeta. run. Qed.

Lemma empty_rule_runs :
  runs_as r c row cfg (empty_rule_m r answer mandatory) (empty_rule row answer mandatory).
Proof. unfold empty_rule_m, empty_rule. run. Qed.

Lemma forbidden_rule_runs :
  runs_as r c row cfg (forbidden_rule_m r c answer mandatory)
          (forbidden_rule row cfg answer mandatory).
Proof.
  unfold forbidden_rule_m, forbidden_rule. cbv zeta.
  eapply runs_bind; [apply contains_forbidden_reads|].
  destruct (contains_forbidden answer cfg); run.
Qed.

Lemma filename_rule_runs :
  runs_as r c row cfg (filename_rule_m r answer expected) (filename_rule row answer expected).
Proof. unfold filename_rule_m, filename_rule. run. Qed.

Lemma allgemeiner_rules_runs :
  runs_as r c row cfg (allgemeiner_rules_m r answer expected)
          (allgemeiner_rules row answer expected).
Proof. unfold allgemeiner_rules_m, allgemeiner_rules. cbv zeta. run. Qed.

Lemma fondsmanagement_rules_runs :
  runs_as r c row cfg (fondsmanagement_rules_m r answer expected)
          (fondsmanagement_rules row answer expected).
Proof.
  unfold fondsmanagement_rules_m, fondsmanagement_rules,
    reference_only_m, refusal_m, reference_only, refusal.
  run.
Qed.

Lemma regta_rules_runs :
  runs_as r c row cfg (regta_rules_m r answer expected) (regta_rules row answer expected).
Proof.
  unfold regta_rules_m, regta_rules,
    reference_only_m, refusal_m, reference_only, refusal.
  run.
Qed.

Lemma zv_fobu_rules_runs :
  runs_as r c row cfg (zv_fobu_rules_m r answer expected) (zv_fobu_rules row answer expected).
Proof.
  unfold zv_fobu_rules_m, zv_fobu_rules,
    reference_only_m, refusal_m, reference_only, refusal.
  run.
Qed.

Lemma verwahrstelle_rules_runs :
  runs_as r c row cfg (verwahrstelle_rules_m r answer expected)
          (verwahrstelle_rules row answer expected).
Proof.
  unfold verwahrstelle_rules_m, verwahrstelle_rules,
    reference_only_m, refusal_m, reference_only, refusal.
  run.
Qed.

Lemma innenrevision_rules_runs :
  runs_as r c row cfg (innenrevision_rules_m r answer expected)
          (innenrevision_rules row answer expected).
Proof. unfold innenrevision_rules_m, innenrevision_rules. run. Qed.

Lemma reference_rule_runs :
  runs_as r c row cfg (reference_rule_m r answer) (reference_rule row answer).
Proof. unfold reference_rule_m, reference_rule. run. Qed.

Lemma yes_no_rule_runs :
  runs_as r c row cfg (yes_no_rule_m r answer expected) (yes_no_rule row answer expected).
Proof. unfold yes_no_rule_m, yes_no_rule. cbv zeta. run. Qed.

Lemma too_short_runs :
  runs_as r c row cfg (too_short_m r c answer)
    (flag_if (Str.len answer <? min_len_descriptive cfg)%Z
       (flag row "INCOMPLETE"
          ("Answer is too short for a descriptive question (min "
           +:+ Str.of_int (min_len_descriptive cfg) +:+ " chars).")
          (<["actual_len" := VInt (Str.len answer)]>
             {["min_len" := VInt (min_len_descriptive cfg)]}))).
Proof.
  unfold too_short_m, flag_if.
  eapply runs_bind; [apply reads_cfg_attr|].
  apply runs_if; [|apply runs_fallthrough].
  eapply runs_bind; [apply row_fields_reads|].
  do 2 (eapply runs_bind; [apply reads_cfg_attr|]).
  apply runs_new_finding.
Qed.

Lemma descriptive_rule_runs :
  runs_as r c row cfg (descriptive_rule_m r c answer expected)
          (descriptive_rule row cfg answer expected).
Proof.
  unfold descriptive_rule_m, descriptive_rule.
  destruct (Str.contains "[text]" (Str.lower expected)).
  - apply too_short_runs.
  - rewrite orb_false_l.
    eapply runs_bind; [apply reads_row_attr|].
    apply runs_if; [apply too_short_runs | apply runs_fallthrough].
Qed.

Lemma cascade_runs :
  runs_as r c row cfg (cascade_m r c answer expected mandatory)
          (cascade row cfg answer expected mandatory).
Proof.
  unfold cascade_m, cascade.
  apply runs_then; [|apply descriptive_rule_runs].
  apply runs_then; [|apply yes_no_rule_runs].
  apply runs_then; [|apply reference_rule_runs].
  apply runs_then; [|apply innenrevision_rules_runs].
  apply runs_then; [|apply verwahrstelle_rules_runs].
  apply runs_then; [|apply zv_fobu_rules_runs].
  apply runs_then; [|apply regta_rules_runs].
  apply runs_then; [|apply fondsmanagement_rules_runs].
  apply runs_then; [|apply allgemeiner_rules_runs].
  apply runs_then; [|apply filename_rule_runs].
  apply runs_then; [|apply forbidden_rule_runs].
  apply runs_then; [|apply empty_rule_runs].
  apply signature_rule_runs.
Qed.

End Rules.

(** On a heap that holds the row and the configuration, [validate_row]
    returns what the pure function computes from their fields, changes
    neither, and creates at most the one [Finding] it returns. *)
Lemma validate_row_runs (h : heap) :
  holds r c row cfg h ->
  validate_row_m r c h = Some (returned (validate_row row cfg) h).
Proof.
  intros Hh. unfold validate_row_m, validate_row, bind.
  rewrite (should_validate_reads h Hh).
  destruct (should_validate row); simpl; [|done].
  rewrite (reads_row_attr answer_text h Hh), (reads_row_attr expected_text h Hh).
  rewrite (is_mandatory_reads h Hh).
  rewrite (cascade_runs _ _ _ h Hh).
  by destruct (cascade row cfg _ _ _) as [[f|]|].
Qed.

End OnHeap.

Lemma holds_with_finding (r c : loc) (row : QuestionRow) (cfg : RuleConfig)
    (f : Finding) (h : heap) :
  holds r c row cfg h -> holds r c row cfg (with_finding f h).
Proof. done. Qed.

(** C8. Two runs of [validate_row], one after the other, on the same row
    object and the same configuration object.  Both runs return; neither
    changes the row, the configuration or a finding made before; and both
    return none, leaving the heap as it was, or they return two different
    new [Finding] objects that are equal in every field.  The result is
    the one the pure [validate_row] computes from the fields of the row
    and of the configuration: nothing else on the heap is read. *)
Theorem validate_row_idempotent (h : heap) (r c : loc)
    (row : QuestionRow) (cfg : RuleConfig) :
  h_rows h !! r = Some row ->
  h_cfgs h !! c = Some cfg ->
  exists res1 h1 res2 h2,
    validate_row_m r c h = Some (res1, h1)
    /\ validate_row_m r c h1 = Some (res2, h2)
    /\ h_rows h1 = h_rows h /\ h_cfgs h1 = h_cfgs h
    /\ h_rows h2 = h_rows h /\ h_cfgs h2 = h_cfgs h
    /\ h_findings h ⊆ h_findings h1 /\ h_findings h1 ⊆ h_findings h2
    /\ match res1, res2 with
       | None, None => validate_row row cfg = None /\ h1 = h /\ h2 = h
       | Some l1, Some l2 =>
           l1 <> l2
           /\ h_findings h !! l1 = None
           /\ h_findings h1 !! l2 = None
           /\ exists f1 f2,
                h_findings h2 !! l1 = Some f1
                /\ h_findings h2 !! l2 = Some f2
                /\ validate_row row cfg = Some f1
                /\ f_sheet f1 = f_sheet f2
                /\ f_row_idx f1 = f_row_idx f2
                /\ f_question_id f1 = f_question_id f2
                /\ f_question_text f1 = f_question_text f2
                /\ f_answer_text f1 = f_answer_text f2
                /\ f_expected_text f1 = f_expected_text f2
                /\ status f1 = status f2
                /\ reason f1 = reason f2
                /\ details f1 = details f2
       | _, _ => False
       end.
Proof.
  intros Hr Hc.
  assert (Hh : holds r c row cfg h) by done.
  pose proof (validate_row_runs r c row cfg h Hh) as H1.
  destruct (validate_row row cfg) as [f|] eqn:Hv; simpl in H1.
  - set (l1 := fresh (dom (h_findings h))) in *.
    set (h1 := with_finding f h) in *.
    assert (Hh1 : holds r c row cfg h1) by done.
    pose proof (validate_row_runs r c row cfg h1 Hh1) as H2.
    rewrite Hv in H2. simpl in H2.
    set (l2 := fresh (dom (h_findings h1))) in *.
    assert (Hl1 : h_findings h !! l1 = None).
    { apply not_elem_of_dom. apply is_fresh. }
    assert (Hl2 : h_findings h1 !! l2 = None).
    { apply not_elem_of_dom. apply is_fresh. }
    assert (Hne : l1 <> l2).
    { intros Heq. rewrite <- Heq in Hl2. unfold h1 in Hl2. simpl in Hl2.
      fold l1 in Hl2. by rewrite lookup_insert_eq in Hl2. }
    exists (Some l1), h1, (Some l2), (with_finding f h1).
    repeat split; try done.
    + simpl. by apply insert_subseteq.
    + simpl. fold l2. by apply insert_subseteq.
    + exists f, f. simpl. fold l1 l2.
      split; [by rewrite lookup_insert_ne, lookup_insert_eq|].
      split; [by rewrite lookup_insert_eq|].
      done.
  - pose proof (validate_row_runs r c row cfg h Hh) as H2.
    rewrite Hv in H2. simpl in H2.
    exists None, h, None, h. by repeat split.
Qed.

Lemma validate_row_idempotent_witness :
  h_rows Heaps.start !! 0 = Some Rows.unanswered
  /\ h_cfgs Heaps.start !! 0 = Some default
  /\ exists h1 h2,
       validate_row_m 0 0 Heaps.start = Some (Some 0, h1)
       /\ validate_row_m 0 0 h1 = Some (Some 1, h2)
       /\ h_rows h2 = h_rows Heaps.start
       /\ h_findings h2 !! 0 = validate_row Rows.unanswered default
       /\ h_findings h2 !! 1 = h_findings h2 !! 0
       /\ status <$> h_findings h2 !! 1 = Some "REJECTED".
Proof.
  assert (Hr : h_rows Heaps.start !! 0 = Some Rows.unanswered) by reflexivity.
  assert (Hc : h_cfgs Heaps.start !! 0 = Some default) by reflexivity.
  split; [exact Hr|]. split; [exact Hc|].
  destruct (validate_row_idempotent Heaps.start 0 0 Rows.unanswered default Hr Hc)
    as (res1 & h1 & res2 & h2 & H1 & H2 & _ & _ & Hrows & _).
  exists h1, h2.
  assert (E1 : Some (res1, h1) = Some (Some 0, h1)).
  { rewrite <- H1. vm_compute in H1. injection H1 as _ <-. reflexivity. }
  injection E1 as ->.
  assert (E2 : Some (res2, h2) = Some (Some 1, h2)).
  { rewrite <- H2. vm_compute in H1. injection H1 as <-.
    vm_compute in H2. injection H2 as _ <-. reflexivity. }
  injection E2 as ->.
  split; [exact H1|]. split; [exact H2|]. split; [exact Hrows|].
  vm_compute in H1. injection H1 as <-.
  vm_compute in H2. injection H2 as <-.
  by vm_compute.
Defined.

(** ** Signature rows *)

Lemma contains_forbidden_clean (cfg : RuleConfig) (answer : string) :
  (forall tok, In tok (forbidden_tokens cfg) ->
               Str.contains tok (Str.lower (Str.strip answer)) = false) ->
  contains_forbidden answer cfg = None.
Proof.
  intros H. unfold contains_forbidden. rewrite or_empty_id. cbv zeta.
  destruct (negb _); [done|]. by apply first_token_in_none.
Qed.

Lemma then_return (r : option Finding) (s : step) : Return r >> s = Return r.
Proof. reflexivity. Qed.

Lemma then_fallthrough (s : step) : Fallthrough >> s = s.
Proof. reflexivity. Qed.

(** C6. A signature row whose trimmed answer is non-empty and contains
    no forbidden token of the configuration passes: the signature branch
    returns none, so [validate_row] returns none whatever the later
    checks would say. *)
Theorem signature_row_clean_passes (row : QuestionRow) (cfg : RuleConfig) :
  is_signature_row row = true ->
  Str.strip (answer_text row) <> "" ->
  (forall tok, In tok (forbidden_tokens cfg) ->
               Str.contains tok (Str.lower (Str.strip (answer_text row))) = false) ->
  signature_rule row cfg (Str.strip (answer_text row)) = Return None
  /\ validate_row row cfg = None.
Proof.
  intros Hsig Hne Hclean.
  assert (Hrule : signature_rule row cfg (Str.strip (answer_text row)) = Return None).
  { unfold signature_rule. rewrite Hsig. cbv zeta.
    rewrite contains_forbidden_clean by (by rewrite strip_idem).
    destruct (Str.strip (answer_text row)); [done|reflexivity]. }
  split; [exact Hrule|].
  unfold validate_row. destruct (negb (should_validate row)); [done|].
  cbv zeta. unfold cascade. rewrite or_empty_id, Hrule. reflexivity.
Qed.

Lemma signature_row_clean_passes_witness :
  is_signature_row Rows.signed = true
  /\ validate_row Rows.signed default = None.
Proof.
  split; [reflexivity|].
  apply (signature_row_clean_passes Rows.signed default).
  - reflexivity.
  - discriminate.
  - intros tok Hin. simpl in Hin.
    repeat (destruct Hin as [<-|Hin]; [vm_compute; reflexivity|]).
    destruct Hin.
Defined.

(** ** Empty answers *)

(** C2, as stated, fails: a row with an empty answer that is mandatory
    and no signature row, but whose expected text is a note, is skipped
    by the gate at the top of [validate_row]. *)
Lemma empty_mandatory_note_not_rejected :
  answer_text Rows.note_row = ""
  /\ is_mandatory Rows.note_row = true
  /\ is_signature_row Rows.note_row = false
  /\ validate_row Rows.note_row default = None.
Proof. vm_compute. repeat split; reflexivity. Qed.

(** C2, amended. For every row that [should_validate] accepts, whose
    answer_text is empty, that is mandatory and no signature row,
    [validate_row] returns the finding REJECTED, "Mandatory field is
    empty." *)
Theorem empty_mandatory_rejected (row : QuestionRow) (cfg : RuleConfig) :
  should_validate row = true ->
  answer_text row = "" ->
  is_mandatory row = true ->
  is_signature_row row = false ->
  validate_row row cfg
  = Some (flag row "REJECTED" "Mandatory field is empty." {["mandatory" := VBool true]})
  /\ option_map status (validate_row row cfg) = Some "REJECTED".
Proof.
  intros Hval Hans Hman Hsig.
  assert (H : validate_row row cfg
              = Some (flag row "REJECTED" "Mandatory field is empty."
                        {["mandatory" := VBool true]})).
  { unfold validate_row. rewrite Hval, Hans, Hman. simpl.
    unfold cascade, signature_rule, empty_rule. rewrite Hsig. reflexivity. }
  split; [exact H | by rewrite H].
Qed.

Lemma empty_mandatory_rejected_witness :
  should_validate Rows.unanswered = true
  /\ option_map status (validate_row Rows.unanswered default) = Some "REJECTED".
Proof.
  split; [reflexivity|].
  apply (empty_mandatory_rejected Rows.unanswered default); reflexivity.
Defined.

(** ** Answers that point at other documents *)

(** C4, as stated, fails: with the other fields arbitrary the row may be
    a heading, which [validate_row] does not flag at all. *)
Lemma annex_heading_not_flagged :
  answer_text Rows.annex_heading = "See attachment Annex 3"
  /\ expected_text Rows.annex_heading = ""
  /\ is_fondsmanagement_sheet (sheet Rows.annex_heading) = false
  /\ is_regta_sheet (sheet Rows.annex_heading) = false
  /\ is_zv_fobu_sheet (sheet Rows.annex_heading) = false
  /\ is_verwahrstelle_sheet (sheet Rows.annex_heading) = false
  /\ validate_row Rows.annex_heading default = None.
Proof. vm_compute. repeat split; reflexivity. Qed.

(** C4, amended. For every row with answer_text "See attachment Annex 3"
    and empty expected_text that [should_validate] accepts, that is no
    signature row, that is not rejected for a forbidden token of the
    configuration, and whose question, if the sheet is a general sheet,
    names no e-mail, phone or website field, [validate_row] returns the
    finding NEEDS_EVIDENCE, whatever the sheet. *)
Theorem annex_answer_needs_evidence (row : QuestionRow) (cfg : RuleConfig) :
  answer_text row = "See attachment Annex 3" ->
  expected_text row = "" ->
  should_validate row = true ->
  is_signature_row row = false ->
  truthy_opt (contains_forbidden "See attachment Annex 3" cfg) && is_mandatory row = false ->
  (is_allgemeiner_sheet (sheet row) = true ->
   Str.contains_any shape_keywords (Str.lower (question_text row)) = false) ->
  validate_row row cfg
  = Some (flag row "NEEDS_EVIDENCE"
            "Answer references an attachment/section; requires document evidence retrieval."
            {["reference_detected" := VBool true]})
  /\ option_map status (validate_row row cfg) = Some "NEEDS_EVIDENCE".
Proof.
  intros Hans Hexp Hval Hsig Hforb Hgen.
  assert (Hstrip : Str.strip "See attachment Annex 3" = "See attachment Annex 3")
    by (vm_compute; reflexivity).
  assert (Hforbid : forbidden_rule row cfg "See attachment Annex 3" (is_mandatory row)
                    = Fallthrough).
  { unfold forbidden_rule. cbv zeta.
    destruct (contains_forbidden _ cfg) as [tok|]; [|done].
    simpl in Hforb. by rewrite Hforb. }
  assert (Hall : allgemeiner_rules row "See attachment Annex 3" "" = Fallthrough).
  { unfold allgemeiner_rules.
    destruct (is_allgemeiner_sheet (sheet row)); [|done].
    specialize (Hgen eq_refl). rewrite or_empty_id. cbv zeta.
    unfold shape_keywords, Str.contains_any in Hgen. simpl in Hgen.
    repeat (apply orb_false_elim in Hgen; destruct Hgen as [?H Hgen]).
    repeat match goal with H : Str.contains _ _ = false |- _ => rewrite H; clear H end.
    vm_compute. reflexivity. }
  assert (H : validate_row row cfg
              = Some (flag row "NEEDS_EVIDENCE"
                        "Answer references an attachment/section; requires document evidence retrieval."
                        {["reference_detected" := VBool true]})).
  { unfold validate_row. rewrite Hval, Hans, Hexp, !or_empty_id, Hstrip, strip_empty.
    cbv zeta. simpl negb. cbv iota.
    unfold cascade, signature_rule. rewrite Hsig, Hforbid, Hall.
    replace (empty_rule row "See attachment Annex 3" (is_mandatory row))
      with Fallthrough by reflexivity.
    replace (filename_rule row "See attachment Annex 3" "") with Fallthrough
      by (vm_compute; reflexivity).
    replace (fondsmanagement_rules row "See attachment Annex 3" "") with Fallthrough
      by (unfold fondsmanagement_rules; destruct (is_fondsmanagement_sheet _);
          [vm_compute; reflexivity | reflexivity]).
    replace (regta_rules row "See attachment Annex 3" "") with Fallthrough
      by (unfold regta_rules; destruct (is_regta_sheet _);
          [vm_compute; reflexivity | reflexivity]).
    replace (zv_fobu_rules row "See attachment Annex 3" "") with Fallthrough
      by (unfold zv_fobu_rules; destruct (is_zv_fobu_sheet _);
          [vm_compute; reflexivity | reflexivity]).
    replace (verwahrstelle_rules row "See attachment Annex 3" "") with Fallthrough
      by (unfold verwahrstelle_rules; destruct (is_verwahrstelle_sheet _);
          [vm_compute; reflexivity | reflexivity]).
    replace (innenrevision_rules row "See attachment Annex 3" "") with Fallthrough
      by (unfold innenrevision_rules; destruct (is_innenrevision_sheet _);
          [vm_compute; reflexivity | reflexivity]).
    replace (reference_rule row "See attachment Annex 3")
      with (Return (Some (flag row "NEEDS_EVIDENCE"
              "Answer references an attachment/section; requires document evidence retrieval."
              {["reference_detected" := VBool true]})))
      by (vm_compute; reflexivity).
    reflexivity. }
  split; [exact H | by rewrite H].
Qed.

Lemma annex_answer_needs_evidence_witness :
  should_validate Rows.annex_question = true
  /\ option_map status (validate_row Rows.annex_question default) = Some "NEEDS_EVIDENCE".
Proof.
  split; [reflexivity|].
  apply (annex_answer_needs_evidence Rows.annex_question default); reflexivity.
Defined.

(** ** The sheet-specific reference and refusal checks *)

(** C1, as stated, fails: on the RegTA sheet an answer that mentions
    "policy" is rejected by the disallow-reference check, while the same
    row on the fund-management sheet is not. *)
Lemma regta_rejects_policy_reference :
  let row := Rows.regta_policy in
  let answer := Str.strip (answer_text row) in
  let expected := Str.strip (expected_text row) in
  is_regta_sheet (sheet row) = true
  /\ expected_disallow_reference expected = true
  /\ detect_reference answer = true
  /\ Str.contains "policy" (Str.lower answer) = true
  /\ regta_rules row answer expected = Return (Some (reference_only row))
  /\ status (reference_only row) = "REJECTED"
  /\ validate_row row default = Some (reference_only row)
  /\ fondsmanagement_rules Rows.fonds_policy answer expected = Fallthrough
  /\ option_map status (validate_row Rows.fonds_policy default) = Some "NEEDS_EVIDENCE".
Proof. vm_compute. repeat split; reflexivity. Qed.

(** C1, amended. On a sheet of the regta, zv+fobu or custodian
    (Verwahrstelle) category, that category's branch applies the
    disallow-reference check without the policy exemption, then the
    disallow-refusal check of the fund-management branch: a detected
    reference the template disallows is REJECTED also when the answer
    mentions "policy".  The branch does what the fund-management checks
    do exactly on answers that do not mention "policy". *)
Theorem later_branches_no_policy_exemption
        (c : string -> bool) (B : QuestionRow -> string -> string -> step)
        (row : QuestionRow) (answer expected : string) :
  In (c, B) later_branches ->
  c (sheet row) = true ->
  B row answer expected = disallow_checks false row answer expected
  /\ (expected_disallow_reference expected = true -> detect_reference answer = true ->
      B row answer expected = Return (Some (reference_only row)))
  /\ (Str.contains "policy" (Str.lower answer) = false ->
      B row answer expected = disallow_checks true row answer expected)
  /\ (is_fondsmanagement_sheet (sheet row) = true ->
      fondsmanagement_rules row answer expected
      = disallow_checks true row answer expected).
Proof.
  intros Hin Hc.
  assert (HB : B row answer expected = disallow_checks false row answer expected).
  { simpl in Hin. destruct Hin as [[= <- <-]|[[= <- <-]|[[= <- <-]|[]]]];
      unfold regta_rules, zv_fobu_rules, verwahrstelle_rules, disallow_checks;
      rewrite Hc; simpl; by rewrite andb_true_r. }
  split; [exact HB|]. split; [|split].
  - intros He Hd. rewrite HB. unfold disallow_checks. by rewrite He, Hd.
  - intros Hp. rewrite HB. unfold disallow_checks. by rewrite Hp, !andb_false_r.
  - intros Hf. unfold fondsmanagement_rules, disallow_checks. rewrite Hf. simpl.
    destruct (expected_disallow_reference expected); simpl; [|done].
    done.
Qed.

Lemma later_branches_no_policy_exemption_witness :
  is_regta_sheet (sheet Rows.regta_policy) = true
  /\ regta_rules Rows.regta_policy "See policy document"
       "Reference to a document is not acceptable"
     = disallow_checks false Rows.regta_policy "See policy document"
         "Reference to a document is not acceptable".
Proof.
  split; [reflexivity|].
  destruct (later_branches_no_policy_exemption is_regta_sheet regta_rules
              Rows.regta_policy "See policy document"
              "Reference to a document is not acceptable"
              (or_introl eq_refl) eq_refl) as [H _].
  exact H.
Defined.

(** ** Sheet categories *)

(** C3, as stated, fails: the internal-audit classifier does not hold on
    a sheet named "Internal Audit", and the general classifier holds on a
    sheet that does not contain "general". *)
Lemma internal_audit_not_recognised :
  icontains "internal audit" "Internal Audit"
  /\ is_innenrevision_sheet "Internal Audit" = false
  /\ is_allgemeiner_sheet "Allgemeines" = true
  /\ ~ icontains "general" "Allgemeines".
Proof.
  split; [by exists "", ""|]. split; [reflexivity|]. split; [reflexivity|].
  intros H. apply contains_spec in H. vm_compute in H. discriminate.
Qed.

(** C3, amended. Each sheet classifier holds exactly when the sheet
    name, case ignored, contains the classifier's keywords: "allgemein"
    or "general"; "fondsmanagement" or "fund management";
    "innenrevision"; "regta"; both "zv" and "fobu"; "verwahrstelle". *)
Theorem sheet_classifiers (s : string) :
  (is_allgemeiner_sheet s = true <-> icontains "allgemein" s \/ icontains "general" s)
  /\ (is_fondsmanagement_sheet s = true
      <-> icontains "fondsmanagement" s \/ icontains "fund management" s)
  /\ (is_innenrevision_sheet s = true <-> icontains "innenrevision" s)
  /\ (is_regta_sheet s = true <-> icontains "regta" s)
  /\ (is_zv_fobu_sheet s = true <-> icontains "zv" s /\ icontains "fobu" s)
  /\ (is_verwahrstelle_sheet s = true <-> icontains "verwahrstelle" s).
Proof.
  unfold is_allgemeiner_sheet, is_fondsmanagement_sheet, is_innenrevision_sheet,
    is_regta_sheet, is_zv_fobu_sheet, is_verwahrstelle_sheet.
  cbv zeta.
  rewrite ?orb_true_iff, ?andb_true_iff, !contains_lower_icontains.
  tauto.
Qed.

(** * Further properties of the engine *)

(** ** Forbidden tokens *)

Lemma first_token_in_some (toks : list string) (a tok : string) :
  first_token_in toks a = Some tok ->
  In tok toks /\ Str.contains tok a = true.
Proof.
  induction toks as [|t toks IH]; [done|].
  simpl. destruct (Str.contains t a) eqn:Ht.
  - intros [= <-]. split; [by left | done].
  - intros H. destruct (IH H) as [Hin Hc]. split; [by right | done].
Qed.

Lemma first_token_in_none_inv (toks : list string) (a : string) :
  first_token_in toks a = None ->
  forall tok, In tok toks -> Str.contains tok a = false.
Proof.
  induction toks as [|t toks IH]; [done|].
  simpl. destruct (Str.contains t a) eqn:Ht; [done|].
  intros H tok [<-|Hin]; [done | by apply IH].
Qed.

Lemma contains_empty (a : string) : Str.contains "" a = true.
Proof. apply contains_spec. by exists "", a. Qed.

(** X1. [contains_forbidden] answers with a configured token that occurs in
    the trimmed, lower-cased answer, and answers none exactly when the
    trimmed answer is empty or holds no configured token. *)
Theorem contains_forbidden_spec (answer : string) (cfg : RuleConfig) :
  (forall tok, contains_forbidden answer cfg = Some tok ->
     In tok (forbidden_tokens cfg)
     /\ Str.strip answer <> ""
     /\ Str.contains tok (Str.lower (Str.strip answer)) = true)
  /\ (contains_forbidden answer cfg = None <->
      Str.strip answer = ""
      \/ forall tok, In tok (forbidden_tokens cfg) ->
           Str.contains tok (Str.lower (Str.strip answer)) = false).
Proof.
  unfold contains_forbidden. rewrite or_empty_id. cbv zeta.
  destruct (Str.strip answer) as [|c a] eqn:Hs.
  - simpl. split; [done|]. split; [by left | done].
  - change (negb (Str.truthy (Str.lower (String c a)))) with false. cbv iota.
    split.
    + intros tok H. apply first_token_in_some in H as [Hin Hc]. by repeat split.
    + split.
      * intros H. right. by apply first_token_in_none_inv.
      * intros [H|H]; [discriminate | by apply first_token_in_none].
Qed.

(** X2. An empty string among the configured tokens is "found" in every
    non-empty answer; being false as a truth value it never flags, and it
    hides every token listed after it. *)
Theorem empty_token_masks_the_rest (row : QuestionRow) (rest : list string)
        (n : Z) (answer : string) (mandatory : bool) :
  Str.strip answer <> "" ->
  contains_forbidden answer (mkRuleConfig ("" :: rest) n) = Some ""
  /\ forbidden_rule row (mkRuleConfig ("" :: rest) n) answer mandatory = Fallthrough.
Proof.
  intros Hne.
  assert (H : contains_forbidden answer (mkRuleConfig ("" :: rest) n) = Some "").
  { unfold contains_forbidden. rewrite or_empty_id. cbv zeta.
    destruct (Str.strip answer) as [|c a]; [done|].
    change (negb (Str.truthy (Str.lower (String c a)))) with false. cbv iota.
    simpl forbidden_tokens. unfold first_token_in. by rewrite contains_empty. }
  split; [exact H|]. unfold forbidden_rule. cbv zeta. by rewrite H.
Qed.

Lemma empty_token_masks_the_rest_witness :
  contains_forbidden "TBD" (mkRuleConfig [""; "tbd"] 20) = Some ""
  /\ contains_forbidden "TBD" (mkRuleConfig ["tbd"] 20) = Some "tbd".
Proof.
  split; [|reflexivity].
  apply (empty_token_masks_the_rest Rows.unanswered ["tbd"] 20 "TBD" true).
  discriminate.
Defined.

(** ** The catalogue of findings *)

Lemma then_inv (a b : step) (r : option Finding) :
  a >> b = Return r -> a = Return r \/ (a = Fallthrough /\ b = Return r).
Proof. destruct a; simpl; intros H; [by left | by right]. Qed.

Lemma then_fall (a b : step) :
  a >> b = Fallthrough -> a = Fallthrough /\ b = Fallthrough.
Proof. by destruct a. Qed.

Lemma flag_if_return (c : bool) (f g : Finding) :
  flag_if c f = Return (Some g) -> c = true /\ g = f.
Proof. destruct c; simpl; [|done]. by intros [= ->]. Qed.

Lemma flag_if_fall (c : bool) (f : Finding) :
  flag_if c f = Fallthrough -> c = false.
Proof. by destruct c. Qed.

Lemma reference_rule_fall (row : QuestionRow) (answer : string) :
  reference_rule row answer = Fallthrough -> detect_reference answer = false.
Proof. apply flag_if_fall. Qed.

Lemma contains_forbidden_some (answer : string) (cfg : RuleConfig) (tok : string) :
  contains_forbidden answer cfg = Some tok ->
  In tok (forbidden_tokens cfg)
  /\ Str.contains tok (Str.lower (Str.strip answer)) = true.
Proof.
  unfold contains_forbidden. rewrite or_empty_id. cbv zeta.
  destruct (negb _); [done|]. apply first_token_in_some.
Qed.

Lemma truthy_true (s : string) : Str.truthy s = true -> s <> "".
Proof. by destruct s. Qed.

(** Take apart the hypotheses saying that a chain of steps returned. *)
Ltac crunch :=
  repeat match goal with
    | H : Fallthrough = Return _ |- _ => discriminate H
    | H : Return None = Return (Some _) |- _ => discriminate H
    | H : _ >> _ = Return _ |- _ =>
        apply then_inv in H; destruct H as [H | [? H]]
    | H : flag_if _ _ = Return (Some _) |- _ =>
        apply flag_if_return in H; destruct H as [? ?]; subst
    | H : Return (Some _) = Return (Some _) |- _ => injection H as ?; subst
    | H : (if ?c then _ else _) = Return _ |- _ => destruct c eqn:?
    | H : match ?c with Some _ => _ | None => _ end = Return _ |- _ =>
        destruct c eqn:?
    end.

(** Take apart the hypotheses saying that earlier steps fell through. *)
Ltac fallen :=
  repeat match goal with
    | H : _ >> _ = Fallthrough |- _ => apply then_fall in H; destruct H
    | H : reference_rule _ _ = Fallthrough |- _ => apply reference_rule_fall in H
    end.

Ltac booleans :=
  repeat match goal with
    | H : _ && _ = true |- _ => apply andb_true_iff in H; destruct H
    | H : negb _ = true |- _ => apply negb_true_iff in H
    | H : bool_decide _ = true |- _ => apply bool_decide_eq_true in H
    | H : Str.truthy _ = true |- _ => apply truthy_true in H
    | H : Str.truthy _ = false |- _ => apply truthy_false in H
    | H : contains_forbidden _ _ = Some _ |- _ =>
        apply contains_forbidden_some in H; destruct H
    end.

Lemma cascade_verdict row cfg answer expected mandatory f :
  cascade row cfg answer expected mandatory = Return (Some f) ->
  exists st rs dt,
    f = flag row st rs dt /\ verdict row cfg answer expected st rs dt.
Proof.
  intros H. unfold cascade in H.
  repeat (apply then_inv in H; destruct H as [H | [? H]]); fallen;
    unfold signature_rule, empty_rule, forbidden_rule, filename_rule,
      allgemeiner_rules, fondsmanagement_rules, regta_rules, zv_fobu_rules,
      verwahrstelle_rules, innenrevision_rules, reference_rule, yes_no_rule,
      descriptive_rule, reference_only, refusal in H;
    cbv zeta in H; crunch; booleans;
    eexists _, _, _; (split; [reflexivity|]);
    first [ by econstructor; eauto
          | by eapply V_number_text; eauto
          | by eapply V_short; [apply Z.ltb_lt|]; eauto ].
Qed.

Lemma validate_row_verdict row cfg f :
  validate_row row cfg = Some f ->
  exists st rs dt,
    f = flag row st rs dt
    /\ verdict row cfg (Str.strip (answer_text row)) (Str.strip (expected_text row))
         st rs dt.
Proof.
  unfold validate_row. destruct (negb (should_validate row)); [discriminate|].
  cbv zeta. rewrite !or_empty_id. intros H.
  destruct (cascade _ _ _ _ _) as [r|] eqn:E; simpl in H; [|discriminate].
  subst r. exact (cascade_verdict _ _ _ _ _ _ E).
Qed.

Lemma validate_row_unfold row cfg :
  should_validate row = true ->
  validate_row row cfg
  = finish (cascade row cfg (Str.strip (answer_text row))
              (Str.strip (expected_text row)) (is_mandatory row)).
Proof. intros H. unfold validate_row. by rewrite H, !or_empty_id. Qed.

(** ** The tag of a finding *)




(** ** The gate *)

(** X3. A row whose expected text, trimmed and lower-cased, starts with one
    of the note phrases is never validated, whatever its other fields and
    wherever it stands among the rows: [should_validate] is false,
    [validate_row] returns none under every configuration, and the row
    loop puts at the row's position the placeholder with status SKIPPED
    that carries the row's six fields. *)
Theorem note_rows_are_skipped (rows : list QuestionRow) (i : nat) (row : QuestionRow) :
  rows !! i = Some row ->
  Str.startswith_any
    ["please note"; "bitte beachten"; "hinweis"; "note:"; "the following documents"]
    (Str.lower (Str.strip (expected_text row))) = true ->
  should_validate row = false
  /\ (forall cfg, validate_row row cfg = None)
  /\ results (validate_loop rows) !! i
     = Some {| f_sheet := sheet row;
               f_row_idx := row_idx row;
               f_question_id := question_id row;
               f_question_text := question_text row;
               f_answer_text := answer_text row;
               f_expected_text := expected_text row;
               status := "SKIPPED";
               reason := "Row is not a question or validation rule does not apply.";
               details := Some {["validated" := VBool false]} |}.
Proof.
  intros Hi Hnote.
  assert (Hne : Str.truthy (Str.lower (Str.strip (expected_text row))) = true).
  { destruct (Str.lower (Str.strip (expected_text row))); [|done].
    vm_compute in Hnote. discriminate. }
  assert (Hs : should_validate row = false).
  { unfold should_validate, looks_like_note. rewrite !or_empty_id. cbv zeta.
    by rewrite Hne, Hnote. }
  split; [exact Hs|]. split.
  - intros cfg. unfold validate_row. by rewrite Hs.
  - unfold validate_loop. cbv zeta. rewrite fold_loop_results.
    cbn [app results].
    change (map (row_result default) rows) with (row_result default <$> rows).
    rewrite list_lookup_fmap, Hi. simpl. unfold row_result. by rewrite Hs.
Qed.

Lemma note_rows_are_skipped_witness :
  [Rows.unanswered; Rows.note_row; Rows.annex_question] !! 1%nat = Some Rows.note_row
  /\ should_validate Rows.note_row = false
  /\ option_map status
       (results (validate_loop [Rows.unanswered; Rows.note_row; Rows.annex_question])
          !! 1%nat)
     = Some "SKIPPED".
Proof.
  split; [reflexivity|].
  destruct (note_rows_are_skipped
              [Rows.unanswered; Rows.note_row; Rows.annex_question] 1 Rows.note_row
              eq_refl eq_refl) as (Hs & _ & Hr).
  split; [exact Hs|]. by rewrite Hr.
Defined.

(** ** Signature rows, blank answers, forbidden tokens *)

(** X4. On a signature row that the gate accepts, [validate_row] returns
    the INCOMPLETE signature finding or none, and no later rule is
    consulted.  It returns the finding exactly when the trimmed answer is
    empty or [contains_forbidden] answers with a token that is not the
    empty string (the first configured token that occurs in the answer);
    when the empty string is not among the configured tokens, that is
    exactly when the trimmed answer is empty or some configured token
    occurs in it, lower-cased. *)
Theorem signature_row_verdict (row : QuestionRow) (cfg : RuleConfig) :
  should_validate row = true ->
  is_signature_row row = true ->
  (validate_row row cfg
   = Some (flag row "INCOMPLETE" "Signature/name/date is missing."
             {["expected" := VStr "signature"]})
   \/ validate_row row cfg = None)
  /\ (validate_row row cfg
      = Some (flag row "INCOMPLETE" "Signature/name/date is missing."
                {["expected" := VStr "signature"]})
      <-> Str.strip (answer_text row) = ""
          \/ exists tok, contains_forbidden (Str.strip (answer_text row)) cfg = Some tok
                         /\ tok <> "")
  /\ (~ In "" (forbidden_tokens cfg) ->
      (validate_row row cfg
       = Some (flag row "INCOMPLETE" "Signature/name/date is missing."
                 {["expected" := VStr "signature"]})
       <-> Str.strip (answer_text row) = ""
           \/ exists tok, In tok (forbidden_tokens cfg)
                /\ Str.contains tok (Str.lower (Str.strip (answer_text row))) = true)).
Proof.
  intros Hval Hsig.
  assert (Hrun : validate_row row cfg
    = if negb (Str.truthy (Str.strip (answer_text row)))
         || truthy_opt (contains_forbidden (Str.strip (answer_text row)) cfg)
      then Some (flag row "INCOMPLETE" "Signature/name/date is missing."
                   {["expected" := VStr "signature"]})
      else None).
  { rewrite validate_row_unfold by done.
    unfold cascade, signature_rule. rewrite Hsig. cbv zeta.
    by destruct (_ || _). }
  assert (Hiff : validate_row row cfg
      = Some (flag row "INCOMPLETE" "Signature/name/date is missing."
                {["expected" := VStr "signature"]})
      <-> Str.strip (answer_text row) = ""
          \/ exists tok, contains_forbidden (Str.strip (answer_text row)) cfg = Some tok
                         /\ tok <> "").
  { rewrite Hrun. destruct (Str.strip (answer_text row)) as [|c a] eqn:Ha.
    - simpl. split; [by left | done].
    - change (negb (Str.truthy (String c a))) with false. rewrite orb_false_l.
      destruct (contains_forbidden (String c a) cfg) as [[|d tok]|] eqn:Hc; simpl.
      + split; [done|]. intros [?|(tok & [= <-] & Hne)]; done.
      + split; [|done]. intros _. right. by eexists.
      + split; [done|]. intros [?|(tok & ? & _)]; done. }
  split; [rewrite Hrun; destruct (_ || _); [by left | by right]|].
  split; [exact Hiff|].
  intros Hnoempty. rewrite Hiff. split.
  - intros [?|(tok & Hc & _)]; [by left|]. right.
    apply contains_forbidden_some in Hc as [Hin Hc]. rewrite strip_idem in Hc.
    by exists tok.
  - intros [?|(tok & Hin & Hc)]; [by left|].
    destruct (Str.strip (answer_text row)) as [|c a] eqn:Ha; [by left|]. right.
    destruct (contains_forbidden (String c a) cfg) as [tok'|] eqn:Hf.
    + exists tok'. split; [done|]. intros ->.
      apply contains_forbidden_some in Hf as [Hin' _]. done.
    + exfalso. unfold contains_forbidden in Hf. rewrite or_empty_id in Hf.
      cbv zeta in Hf. rewrite <- Ha, strip_idem, Ha in Hf.
      change (negb (Str.truthy (Str.lower (String c a)))) with false in Hf.
      cbv iota in Hf.
      pose proof (first_token_in_none_inv _ _ Hf tok Hin) as Hno. congruence.
Qed.

Lemma signature_row_verdict_witness :
  should_validate Rows.signed = true
  /\ is_signature_row Rows.signed = true
  /\ validate_row Rows.signed default = None.
Proof.
  split; [reflexivity|]. split; [reflexivity|].
  destruct (signature_row_verdict Rows.signed default eq_refl eq_refl)
    as ([H|H] & _); [|exact H].
  vm_compute in H. discriminate.
Defined.

(** X5. On a row the gate accepts that is no signature row and whose answer
    is blank (empty once trimmed), the verdict depends on [is_mandatory]
    alone: REJECTED "Mandatory field is empty." when mandatory, a pass
    otherwise. *)
Theorem blank_answer_verdict (row : QuestionRow) (cfg : RuleConfig) :
  should_validate row = true ->
  is_signature_row row = false ->
  Str.strip (answer_text row) = "" ->
  validate_row row cfg
  = if is_mandatory row
    then Some (flag row "REJECTED" "Mandatory field is empty."
                 {["mandatory" := VBool true]})
    else None.
Proof.
  intros Hval Hsig Hblank. rewrite validate_row_unfold by done.
  unfold cascade, signature_rule, empty_rule. rewrite Hsig, Hblank. simpl.
  by destruct (is_mandatory row).
Qed.

Lemma blank_answer_verdict_witness :
  validate_row
    {| sheet := "Sheet1"; row_idx := 9; question_id := None;
       question_text := "Gab es Beanstandungen?"; answer_text := "   ";
       expected_text := "" |} default
  = None.
Proof.
  rewrite (blank_answer_verdict _ default); reflexivity.
Defined.

(** X6. On a mandatory row the gate accepts that is no signature row, a
    non-empty forbidden token found in the answer is reported before any
    later rule: REJECTED, with the token in the reason and in details. *)
Theorem forbidden_token_rejected (row : QuestionRow) (cfg : RuleConfig) (tok : string) :
  should_validate row = true ->
  is_signature_row row = false ->
  is_mandatory row = true ->
  contains_forbidden (Str.strip (answer_text row)) cfg = Some tok ->
  tok <> "" ->
  validate_row row cfg
  = Some (flag row "REJECTED"
            ("Answer contains forbidden placeholder: '" +:+ tok +:+ "'.")
            {["forbidden" := VStr tok]}).
Proof.
  intros Hval Hsig Hman Htok Hne. rewrite validate_row_unfold by done.
  assert (Hans : Str.truthy (Str.strip (answer_text row)) = true).
  { destruct (Str.strip (answer_text row)) eqn:E; [|done].
    vm_compute in Htok. discriminate. }
  unfold cascade, signature_rule, empty_rule, forbidden_rule.
  rewrite Hsig, Hans, Htok, Hman. cbv zeta.
  destruct tok; [done|]. reflexivity.
Qed.

Lemma forbidden_token_rejected_witness :
  option_map details
    (validate_row
       {| sheet := "Sheet1"; row_idx := 3; question_id := Some "1.1";
          question_text := "Name der Gesellschaft"; answer_text := "TBD";
          expected_text := "Field is obligatory" |} default)
  = Some (Some {["forbidden" := VStr "tbd"]}).
Proof.
  rewrite (forbidden_token_rejected _ default "tbd");
    [reflexivity | reflexivity | reflexivity | reflexivity | reflexivity | discriminate].
Defined.

(** ** Blank strings *)

Lemma lstrip_nil (s : string) : Str.lstrip s = "" <-> all_space s = true.
Proof.
  induction s as [|c s IH]; [done|].
  simpl. destruct (Char.isspace c); simpl; [done|]. split; discriminate.
Qed.

Lemma rstrip_nil (s : string) : Str.rstrip s = "" <-> all_space s = true.
Proof.
  induction s as [|c s IH]; [done|].
  simpl. destruct (Str.rstrip s) as [|d r].
  - destruct (Char.isspace c); simpl; [tauto|]. split; discriminate.
  - split; [discriminate|]. rewrite andb_true_iff. intros [_ H].
    apply IH in H. discriminate.
Qed.

Lemma all_space_rstrip (s : string) : all_space (Str.rstrip s) = all_space s.
Proof.
  induction s as [|c s IH]; [done|].
  simpl. destruct (Str.rstrip s) as [|d r] eqn:Hr.
  - apply rstrip_nil in Hr. rewrite Hr, andb_true_r.
    by destruct (Char.isspace c) eqn:Hc; simpl; rewrite ?Hc.
  - simpl in *. by rewrite IH.
Qed.

Lemma strip_nil (s : string) : Str.strip s = "" <-> all_space s = true.
Proof. unfold Str.strip. by rewrite lstrip_nil, all_space_rstrip. Qed.

Lemma all_space_app (a b : string) :
  all_space (a +:+ b) = all_space a && all_space b.
Proof.
  induction a as [|c a IH]; [done|].
  rewrite append_cons. simpl. by rewrite IH, andb_assoc.
Qed.

Lemma isspace_lower (c : ascii) : Char.isspace (Char.lower c) = Char.isspace c.
Proof. destruct c as [[] [] [] [] [] [] [] []]; reflexivity. Qed.

Lemma all_space_lower (s : string) : all_space (Str.lower s) = all_space s.
Proof.
  induction s as [|c s IH]; [done|]. simpl. by rewrite isspace_lower, IH.
Qed.

Lemma contains_not_blank (sub s : string) :
  all_space sub = false -> Str.contains sub s = true -> Str.strip s <> "".
Proof.
  intros Hsub Hc Hs. apply strip_nil in Hs.
  apply contains_spec in Hc as (pre & post & ->).
  rewrite !all_space_app, Hsub in Hs.
  by rewrite andb_false_r in Hs.
Qed.

(** ** Mandatory rows *)

(** X7. A row is mandatory exactly when its expected text is not blank or
    its lower-cased question starts with "name der", "e-mail" or
    "telefon": the keyword tests on the expected text ("obligatory",
    "not acceptable", "must") never decide on their own. *)
Theorem is_mandatory_spec (row : QuestionRow) :
  is_mandatory row = true
  <-> Str.strip (expected_text row) <> ""
      \/ Str.startswith_any ["name der"; "e-mail"; "telefon"]
           (Str.lower (question_text row)) = true.
Proof.
  unfold is_mandatory. rewrite !or_empty_id. cbv zeta.
  assert (Hblank : Str.truthy (Str.strip (Str.lower (expected_text row))) = true
                   <-> Str.strip (expected_text row) <> "").
  { split.
    - intros H Hs. apply strip_nil in Hs. rewrite <- all_space_lower in Hs.
      apply strip_nil in Hs. by rewrite Hs in H.
    - intros H. destruct (Str.strip (Str.lower (expected_text row))) eqn:E; [|done].
      apply strip_nil in E. rewrite all_space_lower in E. apply strip_nil in E. done. }
  assert (Hq : Str.startswith_any ["name der"; "e-mail"; "telefon"]
                 (Str.lower (question_text row))
               = Str.startswith "name der" (Str.lower (question_text row))
                 || Str.startswith "e-mail" (Str.lower (question_text row))
                 || Str.startswith "telefon" (Str.lower (question_text row))).
  { unfold Str.startswith_any. simpl. by rewrite orb_false_r, orb_assoc. }
  rewrite Hq.
  destruct (_ || _ || Str.contains "must" _) eqn:Hkw.
  - split; [|done]. intros _. left. apply Hblank.
    destruct (Str.strip (Str.lower (expected_text row))) eqn:E; [|done].
    exfalso. apply orb_true_iff in Hkw as [Hkw|Hkw];
      [apply orb_true_iff in Hkw as [Hkw|Hkw]|];
      eapply contains_not_blank in Hkw; done.
  - destruct (Str.truthy _) eqn:Ht.
    + split; [|done]. intros _. left. by apply Hblank.
    + destruct (_ || _ || Str.startswith "telefon" _); split; try done.
      * by right.
      * intros [H|H]; [|done]. apply Hblank in H. congruence.
Qed.

(** ** What the findings say *)

(** X8. On a finding of [validate_row], status NEEDS_EVIDENCE and the tag
    [reference_detected] come together, and only for an answer in which
    a reference is detected; so the two halves of the refiner's skip test
    agree, and the refiner skips exactly the NEEDS_EVIDENCE findings. *)
Theorem needs_evidence_iff_reference_tag (row : QuestionRow) (cfg : RuleConfig)
        (f : Finding) :
  validate_row row cfg = Some f ->
  (status f = "NEEDS_EVIDENCE"
   <-> exists dt, details f = Some dt /\ dt !! "reference_detected" = Some (VBool true))
  /\ (status f = "NEEDS_EVIDENCE" ->
      detect_reference (Str.strip (answer_text row)) = true)
  /\ llm_skips f = String.eqb (status f) "NEEDS_EVIDENCE".
Proof.
  intros H. destruct (validate_row_verdict _ _ _ H) as (st & rs & dt & Hf & Hv).
  subst f. destruct Hv; (split; [split|split]); simpl;
    first
      [ discriminate
      | by intros _; eexists; split; [reflexivity|]
      | by intros (dt' & Hd & Hl); injection Hd as <-; vm_compute in Hl
      | done
      | vm_compute; reflexivity ].
Qed.

Lemma needs_evidence_iff_reference_tag_witness :
  llm_skips (reference_only Rows.regta_policy) = false.
Proof.
  assert (H : validate_row Rows.regta_policy default
              = Some (reference_only Rows.regta_policy))
    by (vm_compute; reflexivity).
  destruct (needs_evidence_iff_reference_tag _ _ _ H) as (_ & _ & Hs).
  rewrite Hs. reflexivity.
Defined.

(** X9. A finding of [validate_row] that reports lengths reports the true
    ones: [actual_len] is the length of the trimmed answer, [min_len] the
    configured minimum, the first is below the second, the status is
    INCOMPLETE and the answer holds no detected reference. *)
Theorem reported_lengths_are_true (row : QuestionRow) (cfg : RuleConfig)
        (f : Finding) (dt : gmap string pyval) (v : pyval) :
  validate_row row cfg = Some f ->
  details f = Some dt ->
  dt !! "actual_len" = Some v ->
  v = VInt (Str.len (Str.strip (answer_text row)))
  /\ dt !! "min_len" = Some (VInt (min_len_descriptive cfg))
  /\ (Str.len (Str.strip (answer_text row)) < min_len_descriptive cfg)%Z
  /\ status f = "INCOMPLETE"
  /\ detect_reference (Str.strip (answer_text row)) = false.
Proof.
  intros H Hd Hl. destruct (validate_row_verdict _ _ _ H) as (st & rs & dt' & Hf & Hv).
  subst f. simpl in Hd. injection Hd as ->.
  destruct Hv; try (vm_compute in Hl; discriminate).
  rewrite lookup_insert_eq in Hl. injection Hl as <-.
  repeat split; done.
Qed.

Lemma reported_lengths_are_true_witness :
  validate_row
    {| sheet := "Sheet1"; row_idx := 2; question_id := None;
       question_text := "Bitte beschreiben Sie den Prozess."; answer_text := "OK";
       expected_text := "[text]" |} default
  = Some (flag {| sheet := "Sheet1"; row_idx := 2; question_id := None;
                  question_text := "Bitte beschreiben Sie den Prozess.";
                  answer_text := "OK"; expected_text := "[text]" |}
            "INCOMPLETE"
            "Answer is too short for a descriptive question (min 20 chars)."
            (<["actual_len" := VInt 2]> {["min_len" := VInt 20]}))
  /\ (2 < 20)%Z.
Proof.
  assert (H : validate_row
    {| sheet := "Sheet1"; row_idx := 2; question_id := None;
       question_text := "Bitte beschreiben Sie den Prozess."; answer_text := "OK";
       expected_text := "[text]" |} default
  = Some (flag {| sheet := "Sheet1"; row_idx := 2; question_id := None;
                  question_text := "Bitte beschreiben Sie den Prozess.";
                  answer_text := "OK"; expected_text := "[text]" |}
            "INCOMPLETE"
            "Answer is too short for a descriptive question (min 20 chars)."
            (<["actual_len" := VInt 2]> {["min_len" := VInt 20]})))
    by (vm_compute; reflexivity).
  split; [exact H|].
  destruct (reported_lengths_are_true _ _ _ _ (VInt 2) H eq_refl) as (_ & _ & Hlt & _).
  - apply lookup_insert_eq.
  - exact Hlt.
Defined.

(** ** Rows without expected text *)

Lemma blank_expected_findings_aux (row : QuestionRow) (cfg : RuleConfig) (f : Finding) :
  Str.strip (expected_text row) = "" ->
  validate_row row cfg = Some f ->
  details f = Some {["expected" := VStr "signature"]}
  \/ details f = Some {["mandatory" := VBool true]}
  \/ (exists tok, details f = Some {["forbidden" := VStr tok]})
  \/ details f = Some {["expected" := VStr "email"]}
  \/ details f = Some {["expected" := VStr "phone"]}
  \/ details f = Some {["expected" := VStr "url"]}
  \/ details f = Some {["reference_detected" := VBool true]}
  \/ (exists n m, details f = Some (<["actual_len" := VInt n]> {["min_len" := VInt m]})).
Proof.
  intros He H. destruct (validate_row_verdict _ _ _ H) as (st & rs & dt & Hf & Hv).
  subst f. rewrite He in Hv. simpl.
  destruct Hv;
    try match goal with
      | H : _ "" = true |- _ => vm_compute in H; discriminate H
      | H : expected_yes_no "" = Some _ |- _ => vm_compute in H; discriminate H
      end;
    eauto 12.
Qed.

(** X10. When the expected text is blank, as it is on every row the
    extractors build, the rules driven by the expected text never fire:
    a finding is the signature, mandatory-empty, forbidden-token, e-mail,
    phone, URL, reference-detected or too-short finding, and never
    carries the tags reference_only, refusal, filename, number+text, YES
    or NO. *)
Theorem blank_expected_findings (row : QuestionRow) (cfg : RuleConfig) (f : Finding) :
  Str.strip (expected_text row) = "" ->
  validate_row row cfg = Some f ->
  details f = Some {["expected" := VStr "signature"]}
  \/ details f = Some {["mandatory" := VBool true]}
  \/ (exists tok, details f = Some {["forbidden" := VStr tok]})
  \/ details f = Some {["expected" := VStr "email"]}
  \/ details f = Some {["expected" := VStr "phone"]}
  \/ details f = Some {["expected" := VStr "url"]}
  \/ details f = Some {["reference_detected" := VBool true]}
  \/ (exists n m, details f = Some (<["actual_len" := VInt n]> {["min_len" := VInt m]})).
Proof. apply blank_expected_findings_aux. Qed.

Lemma blank_expected_findings_witness :
  validate_row Rows.annex_question default
  = Some (flag Rows.annex_question "NEEDS_EVIDENCE"
            "Answer references an attachment/section; requires document evidence retrieval."
            {["reference_detected" := VBool true]})
  /\ Str.strip (expected_text Rows.annex_question) = "".
Proof.
  assert (H : validate_row Rows.annex_question default
  = Some (flag Rows.annex_question "NEEDS_EVIDENCE"
            "Answer references an attachment/section; requires document evidence retrieval."
            {["reference_detected" := VBool true]})) by (vm_compute; reflexivity).
  split; [exact H|].
  destruct (blank_expected_findings Rows.annex_question default _ eq_refl H);
    reflexivity.
Defined.

(** ** Answers with a reference that pass *)

Lemma flag_if_not_pass (c : bool) (f : Finding) : flag_if c f <> Return None.
Proof. by destruct c. Qed.

Ltac crunch_pass :=
  repeat match goal with
    | H : Fallthrough = Return _ |- _ => discriminate H
    | H : Return (Some _) = Return None |- _ => discriminate H
    | H : flag_if _ _ = Return None |- _ => destruct (flag_if_not_pass _ _ H)
    | H : _ >> _ = Return _ |- _ =>
        apply then_inv in H; destruct H as [H | [? H]]
    | H : (if ?c then _ else _) = Return _ |- _ => destruct c eqn:?
    | H : match ?c with Some _ => _ | None => _ end = Return _ |- _ =>
        destruct c eqn:?
    end.

(** X11. A validated row that is no signature row and whose answer holds a
    detected reference passes in one case only: it sits on a general
    sheet and its expected text says that the content is not relevant
    (the early return at the end of the general-sheet branch).  Any other
    such row is flagged. *)
Theorem reference_passes_only_on_general_sheet (row : QuestionRow) (cfg : RuleConfig) :
  should_validate row = true ->
  is_signature_row row = false ->
  detect_reference (Str.strip (answer_text row)) = true ->
  validate_row row cfg = None ->
  is_allgemeiner_sheet (sheet row) = true
  /\ expected_content_not_relevant (Str.strip (expected_text row)) = true.
Proof.
  intros Hval Hsig Href. rewrite validate_row_unfold by done.
  destruct (cascade _ _ _ _ _) as [r|] eqn:E; simpl.
  - intros ->. unfold cascade in E.
    repeat (apply then_inv in E; destruct E as [E | [? E]]); fallen;
      unfold signature_rule, empty_rule, forbidden_rule, filename_rule,
        allgemeiner_rules, fondsmanagement_rules, regta_rules, zv_fobu_rules,
        verwahrstelle_rules, innenrevision_rules, reference_rule, yes_no_rule,
        descriptive_rule, reference_only, refusal in E;
      cbv zeta in E; crunch_pass; booleans; try congruence; try done.
    match goal with Hb : Str.strip _ = "" |- _ => rewrite Hb in Href end.
    vm_compute in Href. discriminate.
  - intros _. unfold cascade in E. fallen. congruence.
Qed.

Lemma reference_passes_only_on_general_sheet_witness :
  is_allgemeiner_sheet "Allgemeines" = true
  /\ expected_content_not_relevant "Content not relevant" = true.
Proof.
  apply (reference_passes_only_on_general_sheet
           {| sheet := "Allgemeines"; row_idx := 6; question_id := None;
              question_text := "Please add any remarks.";
              answer_text := "see annex"; expected_text := "Content not relevant" |}
           default); reflexivity.
Defined.

(** ** The summary of the report *)

Section Weight.
Context (P : string -> Prop) `{!forall k, Decision (P k)}.

Lemma weight_empty : weight P ∅ = 0.
Proof. unfold weight. by rewrite map_to_list_empty. Qed.

Lemma weight_insert_fresh (m : gmap string nat) (k : string) (v : nat) :
  m !! k = None ->
  weight P (<[k := v]> m) = (if decide (P k) then v else 0) + weight P m.
Proof.
  intros Hk. unfold weight. rewrite map_to_list_insert by done.
  rewrite filter_cons. simpl. by destruct (decide (P k)).
Qed.

Lemma weight_counter_add (m : gmap string nat) (x : string) :
  weight P (counter_add m x) = weight P m + (if decide (P x) then 1 else 0).
Proof.
  unfold counter_add. destruct (m !! x) as [n|] eqn:Hx; simpl.
  - rewrite <- (insert_delete_id m x n) at 2 by done.
    rewrite <- insert_delete_eq.
    rewrite !weight_insert_fresh by apply lookup_delete_eq.
    destruct (decide (P x)); lia.
  - rewrite weight_insert_fresh by done. destruct (decide (P x)); lia.
Qed.

Lemma weight_fold (xs : list string) (m : gmap string nat) :
  weight P (fold_left counter_add xs m) = weight P m + length (filter P xs).
Proof.
  revert m. induction xs as [|x xs IH]; intros m; simpl.
  - by rewrite Nat.add_0_r.
  - rewrite IH, weight_counter_add, filter_cons.
    destruct (decide (P x)); simpl; lia.
Qed.

End Weight.

Lemma filter_ext_in {A} (P Q : A -> Prop) `{!forall x, Decision (P x)}
      `{!forall x, Decision (Q x)} (l : list A) :
  (forall x, x ∈ l -> (P x <-> Q x)) -> filter P l = filter Q l.
Proof.
  induction l as [|x l IH]; intros Hall; [done|].
  rewrite !filter_cons.
  assert (Hx : P x <-> Q x) by (apply Hall; left).
  rewrite IH by (intros y Hy; apply Hall; by right).
  destruct (decide (P x)), (decide (Q x)); tauto.
Qed.

Lemma counter_fold_lookup (xs : list string) (m : gmap string nat) (s : string) :
  option.default 0 (fold_left counter_add xs m !! s)
  = option.default 0 (m !! s) + length (filter (fun x => x = s) xs).
Proof.
  revert m. induction xs as [|x xs IH]; intros m; simpl.
  - by rewrite Nat.add_0_r.
  - rewrite IH, filter_cons. unfold counter_add.
    destruct (decide (x = s)) as [->|Hne].
    + rewrite lookup_insert_eq. simpl. lia.
    + by rewrite lookup_insert_ne.
Qed.

Lemma counter_fold_dom (xs : list string) (m : gmap string nat) (s : string) :
  is_Some (fold_left counter_add xs m !! s) <-> is_Some (m !! s) \/ s ∈ xs.
Proof.
  revert m. induction xs as [|x xs IH]; intros m; simpl.
  - rewrite elem_of_nil. tauto.
  - rewrite IH, elem_of_cons. unfold counter_add.
    destruct (decide (x = s)) as [->|Hne].
    + rewrite lookup_insert_eq. split; [intros _; right; by left|].
      intros _. left. by eexists.
    + rewrite lookup_insert_ne by done. split; [tauto|].
      intros [?|[?|?]]; [tauto|congruence|tauto].
Qed.

Lemma summary_counts_aux (results : list Finding) :
  let s := write_report_summary results in
  total_rows s = length results
  /\ total_flagged s = length (filter flagged_status (status <$> results))
  /\ (forall st, option.default 0 (by_status s !! st)
                 = length (filter (fun x => x = st) (status <$> results)))
  /\ (forall st, is_Some (by_status s !! st) <-> st ∈ status <$> results)
  /\ weight (fun _ => True) (by_status s) = total_rows s.
Proof.
  unfold write_report_summary. cbv zeta. simpl. repeat split.
  - rewrite (filter_ext_in _ (fun kv : string * nat => flagged_status kv.1)).
    + change (weight flagged_status (Counter (status <$> results))
              = length (filter flagged_status (status <$> results))).
      unfold Counter. by rewrite weight_fold, weight_empty.
    + intros [k v] Hkv. simpl. rewrite elem_of_filter, elem_of_dom.
      apply elem_of_map_to_list in Hkv. unfold flagged_status.
      split; [tauto|]. intros ?. split; [done | by eexists].
  - intros st. unfold Counter. by rewrite counter_fold_lookup, lookup_empty.
  - unfold Counter. rewrite counter_fold_dom, lookup_empty.
    intros [[? ?]|?]; done.
  - intros ?. unfold Counter. rewrite counter_fold_dom. by right.
  - unfold Counter. rewrite weight_fold, weight_empty. simpl.
    rewrite <- (length_fmap status results). f_equal.
    induction (status <$> results) as [|x l IH]; [done|].
    rewrite filter_cons. simpl. by rewrite IH.
Qed.

(** X12. The summary counts what it says: [total_rows] is the number of
    results, [total_flagged] the number of results whose status is
    neither OK nor SKIPPED, [by_status] gives for each status the number
    of results that carry it and has no entry for a status that does not
    occur, and the entries of [by_status] add up to [total_rows]. *)
Theorem summary_counts (results : list Finding) :
  let s := write_report_summary results in
  total_rows s = length results
  /\ total_flagged s = length (filter flagged_status (status <$> results))
  /\ (forall st, option.default 0 (by_status s !! st)
                 = length (filter (fun x => x = st) (status <$> results)))
  /\ (forall st, is_Some (by_status s !! st) <-> st ∈ status <$> results)
  /\ weight (fun _ => True) (by_status s) = total_rows s.
Proof. apply summary_counts_aux. Qed.

(** ** The flagged rows of the loop *)

Lemma validate_row_gate row cfg :
  should_validate row = false -> validate_row row cfg = None.
Proof. intros H. unfold validate_row. by rewrite H. Qed.

Lemma loop_body_findings cfg st row :
  findings (loop_body cfg st row)
  = (findings st ++ option_list (validate_row row cfg))%list.
Proof.
  unfold loop_body.
  destruct (should_validate row) eqn:Hs; simpl.
  - destruct (validate_row row cfg); simpl; [done | by rewrite app_nil_r].
  - rewrite validate_row_gate by done. simpl. by rewrite app_nil_r.
Qed.

Lemma fold_loop_findings cfg rows st :
  findings (fold_left (loop_body cfg) rows st)
  = (findings st ++ omap (fun row => validate_row row cfg) rows)%list.
Proof.
  revert st. induction rows as [|row rows IH]; intros st; simpl.
  - by rewrite app_nil_r.
  - rewrite IH, loop_body_findings, <- app_assoc. f_equal.
    by destruct (validate_row row cfg).
Qed.

Lemma flagged_status_iff (s : string) :
  flagged_status s <-> s <> "OK" /\ s <> "SKIPPED".
Proof.
  unfold flagged_status. by rewrite not_elem_of_union, !not_elem_of_singleton.
Qed.

Lemma row_result_flagged cfg row :
  match validate_row row cfg with
  | Some f => row_result cfg row = f /\ flagged_status (status f)
  | None => ~ flagged_status (status (row_result cfg row))
  end.
Proof.
  unfold row_result. destruct (validate_row row cfg) as [f|] eqn:Hv.
  - destruct (should_validate row) eqn:Hs.
    + split; [done|].
      apply validate_row_flagged in Hv as (st & rs & dt & Hf & Hst & _). subst f.
      apply flagged_status_iff. simpl.
      destruct Hst as [ -> | [ -> | -> ] ]; split; discriminate.
    + rewrite validate_row_gate in Hv by done. discriminate.
  - rewrite flagged_status_iff.
    destruct (should_validate row); simpl; intros [? ?]; done.
Qed.

(** X13. The list [findings] of the loop holds, in row order, exactly the
    findings [validate_row] returned; these are the results whose status
    is neither OK nor SKIPPED, so the report's [total_flagged] is the
    number of findings and its [total_rows] the number of rows. *)
Theorem loop_findings_are_the_flagged_results (rows : list QuestionRow) :
  let st := validate_loop rows in
  findings st = omap (fun row => validate_row row default) rows
  /\ findings st = filter (fun f => flagged_status (status f)) (results st)
  /\ total_flagged (write_report_summary (results st)) = length (findings st)
  /\ total_rows (write_report_summary (results st)) = length rows.
Proof.
  cbv zeta. unfold validate_loop. cbv zeta.
  rewrite fold_loop_findings, fold_loop_results. cbn [app results findings].
  assert (Hfilter : omap (fun row => validate_row row default) rows
                    = filter (fun f => flagged_status (status f))
                        (map (row_result default) rows)).
  { induction rows as [|row rows IH]; [done|].
    csimpl. rewrite filter_cons, IH.
    pose proof (row_result_flagged default row) as Hrow.
    destruct (validate_row row default) as [f|].
    - destruct Hrow as [-> Hf]. by rewrite decide_True.
    - by rewrite decide_False. }
  split; [done|]. split; [done|]. split.
  - destruct (summary_counts_aux (map (row_result default) rows)) as (_ & -> & _).
    rewrite Hfilter. clear Hfilter.
    induction (map (row_result default) rows) as [|f l IH]; [done|].
    rewrite fmap_cons, !filter_cons.
    destruct (decide (flagged_status (status f))); simpl; by rewrite IH.
  - destruct (summary_counts_aux (map (row_result default) rows)) as (-> & _).
    apply length_map.
Qed.

(** ** Merging refined findings *)

Lemma refined_fold_lookup (refined : list Finding)
      (m : gmap (string * Z * option string) Finding)
      (k : string * Z * option string) (f : Finding) :
  fold_left (fun m f => <[finding_key f := f]> m) refined m !! k = Some f ->
  (f ∈ refined /\ finding_key f = k) \/ m !! k = Some f.
Proof.
  revert m. induction refined as [|g refined IH]; intros m; simpl; [by right|].
  intros H. apply IH in H as [[Hin Hk]|H].
  - left. split; [by right | done].
  - destruct (decide (finding_key g = k)) as [Heq|Hne].
    + rewrite <- Heq, lookup_insert_eq in H. injection H as <-.
      left. split; [by left | done].
    + rewrite lookup_insert_ne in H by done. by right.
Qed.

Lemma refined_map_lookup (refined : list Finding)
      (k : string * Z * option string) (f : Finding) :
  refined_map refined !! k = Some f -> f ∈ refined /\ finding_key f = k.
Proof.
  intros H. apply refined_fold_lookup in H as [H|H]; [done|].
  by rewrite lookup_empty in H.
Qed.

Lemma refined_fold_none (refined : list Finding)
      (m : gmap (string * Z * option string) Finding)
      (k : string * Z * option string) :
  m !! k = None ->
  (forall f, f ∈ refined -> finding_key f <> k) ->
  fold_left (fun m f => <[finding_key f := f]> m) refined m !! k = None.
Proof.
  revert m. induction refined as [|g refined IH]; intros m Hm Hall; simpl; [done|].
  apply IH.
  - rewrite lookup_insert_ne; [done|]. apply Hall. by left.
  - intros f Hf. apply Hall. by right.
Qed.

(** X14. Whatever list the refiner returns, merging it into the results keeps
    their number and order, keeps at every position the key of the result
    that stood there, puts there either the old result or a refined
    finding, and leaves a result untouched when no refined finding has
    its key. *)
Theorem merge_keeps_rows (refined results : list Finding) :
  length (merge_refined refined results) = length results
  /\ (forall i r, results !! i = Some r ->
        exists r', merge_refined refined results !! i = Some r'
                   /\ finding_key r' = finding_key r
                   /\ (r' = r \/ r' ∈ refined)
                   /\ ((forall f, f ∈ refined -> finding_key f <> finding_key r) ->
                       r' = r)).
Proof.
  unfold merge_refined. split; [apply length_fmap|].
  intros i r Hi. rewrite list_lookup_fmap, Hi. simpl.
  eexists. split; [reflexivity|].
  destruct (refined_map refined !! finding_key r) as [f|] eqn:Hl; simpl.
  - apply refined_map_lookup in Hl as [Hin Hk].
    split; [done|]. split; [by right|].
    intros Hall. by destruct (Hall f Hin).
  - split; [done|]. split; [by left | done].
Qed.

Lemma unrefined_merge_is_identity_aux (rows : list QuestionRow) (use_llm : bool) :
  NoDup (row_key <$> rows) ->
  _validate_rows (fun fs => fs) rows use_llm = results (validate_loop rows).
Proof.
  intros Hdup. unfold _validate_rows. cbv zeta.
  destruct (use_llm && _); [|done].
  unfold validate_loop. cbv zeta.
  rewrite fold_loop_findings, fold_loop_results. cbn [app results findings].
  unfold merge_refined.
  assert (Hkey : forall row, finding_key (row_result default row) = row_key row).
  { intros row. unfold row_result.
    destruct (should_validate row); [|done].
    destruct (validate_row row default) as [f|] eqn:Hv; [|done].
    by apply validate_row_flagged in Hv as (st & rs & dt & -> & _). }
  change (map (row_result default) rows) with (row_result default <$> rows).
  apply list_eq. intros i. rewrite !list_lookup_fmap.
  destruct (rows !! i) as [row|] eqn:Hi; [|done]. simpl. f_equal.
  destruct (refined_map _ !! _) as [f|] eqn:Hl; simpl; [|done].
  apply refined_map_lookup in Hl as [Hin Hk].
  apply list_elem_of_omap in Hin as (row' & Hrow' & Hv).
  assert (Hf : f = row_result default row').
  { unfold row_result. rewrite Hv.
    destruct (should_validate row') eqn:Hs; [done|].
    rewrite validate_row_gate in Hv by done. discriminate. }
  rewrite Hkey in Hk. rewrite Hf, Hkey in Hk.
  apply list_elem_of_lookup in Hrow' as [j Hj].
  assert (i = j) as <-.
  { eapply NoDup_lookup; [exact Hdup| |]; rewrite list_lookup_fmap.
    - by rewrite Hi.
    - rewrite Hj. simpl. by rewrite Hk. }
  rewrite Hf. congruence.
Qed.

(** X15. When the refiner returns the findings as they are (as it does when
    no API key is set) and the rows have pairwise distinct keys, the
    merge changes nothing: with or without [use_llm], [_validate_rows]
    returns the results of the loop. *)
Theorem unrefined_merge_is_identity (rows : list QuestionRow) (use_llm : bool) :
  NoDup (row_key <$> rows) ->
  _validate_rows (fun fs => fs) rows use_llm = results (validate_loop rows).
Proof. apply unrefined_merge_is_identity_aux. Qed.

Lemma unrefined_merge_is_identity_witness :
  NoDup (row_key <$> [Rows.unanswered; Rows.annex_question])
  /\ _validate_rows (fun fs => fs) [Rows.unanswered; Rows.annex_question] true
     = results (validate_loop [Rows.unanswered; Rows.annex_question]).
Proof.
  assert (H : NoDup (row_key <$> [Rows.unanswered; Rows.annex_question])).
  { apply NoDup_cons. split; [|apply NoDup_singleton].
    intros Hin. apply list_elem_of_singleton in Hin. discriminate. }
  split; [exact H|].
  exact (unrefined_merge_is_identity [Rows.unanswered; Rows.annex_question] true H).
Defined.

(** Without the distinct keys the merge is not the identity: of two rows
    with the same key, the placeholder of the one that passed is replaced
    by the finding of the other. *)
Lemma shared_key_overwrites_placeholder :
  let asked := {| sheet := "PDF"; row_idx := 1; question_id := Some "1.1";
                  question_text := "Gab es Beanstandungen?"; answer_text := "Nein";
                  expected_text := "" |} in
  let again := {| sheet := "PDF"; row_idx := 1; question_id := Some "1.1";
                  question_text := "Gab es Beanstandungen?"; answer_text := "siehe Anhang";
                  expected_text := "" |} in
  option_map status <$> [validate_row asked default; validate_row again default]
  = [None; Some "NEEDS_EVIDENCE"]
  /\ status <$> results (validate_loop [asked; again]) = ["OK"; "NEEDS_EVIDENCE"]
  /\ status <$> _validate_rows (fun fs => fs) [asked; again] true
     = ["NEEDS_EVIDENCE"; "NEEDS_EVIDENCE"].
Proof. vm_compute. repeat split; reflexivity. Qed.

(** ** Extraction from a workbook *)

Lemma norm_str_trimmed (v : option string) : Str.strip (norm_str v) = norm_str v.
Proof. destruct v; [apply strip_idem | done]. Qed.

Lemma load_row_inv colmap name ws r row :
  load_row colmap name ws r = Some row ->
  sheet row = name
  /\ row_idx row = r
  /\ question_text row = norm_str (cell_text ws r (qtext_col colmap))
  /\ answer_text row = norm_str (cell_text ws r (answer_col colmap))
  /\ expected_text row = ""
  /\ question_id row
     = (if Str.truthy (norm_str (cell_text ws r (qid_col colmap)))
        then Some (norm_str (cell_text ws r (qid_col colmap))) else None)
  /\ ~ (question_text row = "" /\ question_id row = None /\ answer_text row = "").
Proof.
  unfold load_row. cbv zeta.
  destruct (negb _ && negb _ && negb _) eqn:Hskip; [discriminate|].
  intros [= <-]. simpl. repeat split.
  intros (Hq & Hi & Ha). rewrite Hq, Ha in Hskip. simpl in Hskip.
  destruct (Str.truthy (norm_str (cell_text ws r (qid_col colmap)))); discriminate.
Qed.

Lemma load_sheet_inv colmap limit named row :
  row ∈ load_sheet colmap limit named ->
  load_row colmap named.1 named.2 (row_idx row) = Some row
  /\ (1 <= row_idx row <= max_row named.2)%Z
  /\ (forall n, limit = Some n -> (row_idx row <= n)%Z).
Proof.
  unfold load_sheet. cbv zeta. intros Hin.
  apply list_elem_of_omap in Hin as (r & Hr & Hrow).
  pose proof (load_row_inv _ _ _ _ _ Hrow) as (_ & Hidx & _).
  rewrite Hidx. split; [done|].
  apply elem_of_seqZ in Hr. destruct limit as [n|].
  - split; [lia|]. intros ? [= <-]. lia.
  - split; [lia|]. intros ? [=].
Qed.

(** X16. Every row [load_questions] builds comes from a sheet of the workbook
    and a row of that sheet within [1 .. max_row] (and within the limit,
    when one is given); its texts are the trimmed cells, so trimming them
    again changes nothing; its expected text is empty; its question id is
    never the empty string; and it is not blank in all three columns. *)
Theorem load_questions_rows (wb : list (string * worksheet)) (colmap : option ColumnMap)
        (limit : option Z) (row : QuestionRow) :
  row ∈ load_questions wb colmap limit ->
  expected_text row = ""
  /\ Str.strip (question_text row) = question_text row
  /\ Str.strip (answer_text row) = answer_text row
  /\ question_id row <> Some ""
  /\ ~ (question_text row = "" /\ question_id row = None /\ answer_text row = "")
  /\ exists ws, (sheet row, ws) ∈ wb
                /\ (1 <= row_idx row <= max_row ws)%Z
                /\ (forall n, limit = Some n -> (row_idx row <= n)%Z).
Proof.
  unfold load_questions. cbv zeta. intros Hin.
  apply list_elem_of_bind in Hin as ([name ws] & Hrow & Hws).
  apply load_sheet_inv in Hrow as (Hrow & Hrange & Hlimit). simpl in *.
  apply load_row_inv in Hrow as (Hs & _ & Hq & Ha & He & Hid & Hne).
  split; [done|]. split; [rewrite Hq; apply norm_str_trimmed|].
  split; [rewrite Ha; apply norm_str_trimmed|]. split.
  - rewrite Hid. destruct (norm_str (cell_text ws _ (qid_col _))); simpl; congruence.
  - split; [done|]. exists ws. by rewrite Hs.
Qed.

Lemma demo_loaded : load_questions Demo.wb None None = [Demo.row].
Proof. vm_compute. reflexivity. Qed.

Lemma load_questions_rows_witness :
  Demo.row ∈ load_questions Demo.wb None None
  /\ expected_text Demo.row = ""
  /\ Str.strip (question_text Demo.row) = question_text Demo.row.
Proof.
  assert (H : Demo.row ∈ load_questions Demo.wb None None)
    by (rewrite demo_loaded; apply list_elem_of_here).
  split; [exact H|].
  destruct (load_questions_rows _ _ _ _ H) as (He & Hq & _).
  split; [exact He | exact Hq].
Defined.

Lemma omap_idx_sublist (f : Z -> option QuestionRow) (l : list Z) :
  (forall r row, f r = Some row -> row_idx row = r) ->
  (row_idx <$> omap f l) `sublist_of` l.
Proof.
  intros Hf. induction l as [|r l IH]; csimpl; [constructor|].
  destruct (f r) as [row|] eqn:Hr; csimpl.
  - rewrite (Hf _ _ Hr). by apply sublist_skip.
  - by apply sublist_cons.
Qed.

Lemma load_sheet_keys colmap limit named :
  NoDup (row_key <$> load_sheet colmap limit named).
Proof.
  apply (NoDup_fmap_1 (fun k : string * Z * option string => k.1.2)).
  rewrite <- list_fmap_compose. unfold load_sheet. cbv zeta.
  eapply sublist_NoDup; [apply NoDup_seqZ|].
  apply omap_idx_sublist. intros r row Hrow.
  by apply load_row_inv in Hrow as (_ & Hidx & _).
Qed.

Lemma load_sheets_keys colmap limit (wb : list (string * worksheet)) :
  NoDup wb.*1 ->
  NoDup (row_key <$> (wb ≫= load_sheet colmap limit)).
Proof.
  induction wb as [|[name ws] wb IH]; csimpl; [constructor|].
  intros Hdup. apply NoDup_cons in Hdup as [Hname Hdup].
  rewrite fmap_app. apply NoDup_app. split; [apply load_sheet_keys|].
  split; [|by apply IH].
  intros k Hk Hk'.
  apply list_elem_of_fmap in Hk as (row & -> & Hrow).
  apply list_elem_of_fmap in Hk' as (row' & Heq & Hrow').
  apply load_sheet_inv in Hrow as (Hrow & _). simpl in Hrow.
  apply load_row_inv in Hrow as (Hs & _).
  apply list_elem_of_bind in Hrow' as ([name' ws'] & Hrow' & Hin).
  apply load_sheet_inv in Hrow' as (Hrow' & _). simpl in Hrow'.
  apply load_row_inv in Hrow' as (Hs' & _).
  apply Hname. apply list_elem_of_fmap. exists (name', ws'). split; [|done].
  simpl. injection Heq as Hsheet _ _. congruence.
Qed.

(** X17. In a workbook whose sheets have distinct names, the rows
    [load_questions] builds have pairwise distinct keys
    [(sheet, row_idx, question_id)]; so when the refiner returns the
    findings as they are, [_validate_rows] returns the results of the
    loop whether or not [use_llm] is set. *)
Theorem workbook_rows_have_distinct_keys (wb : list (string * worksheet))
        (colmap : option ColumnMap) (limit : option Z) :
  NoDup wb.*1 ->
  NoDup (row_key <$> load_questions wb colmap limit)
  /\ forall use_llm,
       _validate_rows (fun fs => fs) (load_questions wb colmap limit) use_llm
       = results (validate_loop (load_questions wb colmap limit)).
Proof.
  intros Hdup.
  assert (H : NoDup (row_key <$> load_questions wb colmap limit))
    by (by apply load_sheets_keys).
  split; [exact H|]. intros use_llm. by apply unrefined_merge_is_identity_aux.
Qed.

Lemma workbook_rows_have_distinct_keys_witness :
  NoDup Demo.wb2.*1
  /\ row_key <$> load_questions Demo.wb2 None None
     = [("Allgemeines", 2%Z, Some "1.1"); ("RegTA", 1%Z, None); ("RegTA", 2%Z, Some "1.1")]
  /\ NoDup (row_key <$> load_questions Demo.wb2 None None)
  /\ status <$> _validate_rows (fun fs => fs) (load_questions Demo.wb2 None None) true
     = ["NEEDS_EVIDENCE"; "INCOMPLETE"; "INCOMPLETE"]
  /\ _validate_rows (fun fs => fs) (load_questions Demo.wb2 None None) true
     = results (validate_loop (load_questions Demo.wb2 None None)).
Proof.
  assert (Hnames : NoDup Demo.wb2.*1).
  { apply NoDup_cons. split; [|apply NoDup_singleton].
    intros Hin. apply list_elem_of_singleton in Hin. discriminate. }
  split; [exact Hnames|]. split; [vm_compute; reflexivity|].
  destruct (workbook_rows_have_distinct_keys Demo.wb2 None None Hnames) as [Hkeys Hsame].
  split; [exact Hkeys|]. split; [vm_compute; reflexivity | exact (Hsame true)].
Defined.

(** X18. On the rows of a workbook the engine never reports a rule driven by
    the expected text: every finding the loop collects is the signature,
    mandatory-empty, forbidden-token, e-mail, phone, URL,
    reference-detected or too-short finding. *)
Theorem workbook_findings (wb : list (string * worksheet)) (colmap : option ColumnMap)
        (limit : option Z) (f : Finding) :
  f ∈ findings (validate_loop (load_questions wb colmap limit)) ->
  details f = Some {["expected" := VStr "signature"]}
  \/ details f = Some {["mandatory" := VBool true]}
  \/ (exists tok, details f = Some {["forbidden" := VStr tok]})
  \/ details f = Some {["expected" := VStr "email"]}
  \/ details f = Some {["expected" := VStr "phone"]}
  \/ details f = Some {["expected" := VStr "url"]}
  \/ details f = Some {["reference_detected" := VBool true]}
  \/ (exists n m, details f = Some (<["actual_len" := VInt n]> {["min_len" := VInt m]})).
Proof.
  unfold validate_loop. cbv zeta. rewrite fold_loop_findings. cbn [app findings].
  intros Hin. apply list_elem_of_omap in Hin as (row & Hrow & Hv).
  apply (blank_expected_findings_aux row default); [|done].
  unfold load_questions in Hrow. cbv zeta in Hrow.
  apply list_elem_of_bind in Hrow as (named & Hrow & _).
  apply load_sheet_inv in Hrow as (Hrow & _).
  apply load_row_inv in Hrow as (_ & _ & _ & _ & He & _).
  by rewrite He.
Qed.

Lemma workbook_findings_witness :
  let f := flag Demo.row "NEEDS_EVIDENCE"
             "Answer references an attachment/section; requires document evidence retrieval."
             {["reference_detected" := VBool true]} in
  f ∈ findings (validate_loop (load_questions Demo.wb None None))
  /\ details f = Some {["reference_detected" := VBool true]}.
Proof.
  cbv zeta.
  assert (H : flag Demo.row "NEEDS_EVIDENCE"
                "Answer references an attachment/section; requires document evidence retrieval."
                {["reference_detected" := VBool true]}
              ∈ findings (validate_loop (load_questions Demo.wb None None))).
  { replace (findings (validate_loop (load_questions Demo.wb None None)))
      with [flag Demo.row "NEEDS_EVIDENCE"
              "Answer references an attachment/section; requires document evidence retrieval."
              {["reference_detected" := VBool true]}]
      by (vm_compute; reflexivity).
    apply list_elem_of_here. }
  split; [exact H|].
  destruct (workbook_findings _ _ _ _ H); reflexivity.
Defined.

(** ** Reference keywords *)

Lemma lower_cons (c : ascii) (s : string) :
  Str.lower (String c s) = String (Char.lower c) (Str.lower s).
Proof. reflexivity. Qed.

Lemma startswith_cons (c d : ascii) (p s : string) :
  Str.startswith (String c p) (String d s) = true <-> c = d /\ Str.startswith p s = true.
Proof.
  unfold Str.startswith. simpl.
  destruct (Ascii.ascii_dec c d); split; try tauto; try discriminate.
Qed.

Lemma startswith_nil_r (c : ascii) (p : string) :
  Str.startswith (String c p) "" = false.
Proof. reflexivity. Qed.

Lemma run_lit (icase : bool) (c x : ascii) (prev : option ascii) (s : string)
      (k : option ascii -> string -> bool) :
  Re.run icase (Re.Lit c) prev (String x s) k
  = if Re.lit_matches icase c x then k (Some x) s else false.
Proof. reflexivity. Qed.

Lemma run_seq (icase : bool) (a b : Re.regex) (prev : option ascii) (s : string)
      (k : option ascii -> string -> bool) :
  Re.run icase (Re.Seq a b) prev s k
  = Re.run icase a prev s (fun p' s' => Re.run icase b p' s' k).
Proof. reflexivity. Qed.

Lemma run_alt (icase : bool) (a b : Re.regex) (prev : option ascii) (s : string)
      (k : option ascii -> string -> bool) :
  Re.run icase (Re.Alt a b) prev s k
  = if Re.run icase a prev s k then true else Re.run icase b prev s k.
Proof. reflexivity. Qed.

Lemma search_from_unfold (icase : bool) (r : Re.regex) (prev : option ascii) (s : string) :
  Re.search_from icase r prev s
  = if Re.run icase r prev s Re.accept then true
    else match s with
         | EmptyString => false
         | String c s' => Re.search_from icase r (Some c) s'
         end.
Proof. by destruct s. Qed.

(** Case-insensitively, a literal word matches a string that starts with it. *)
Lemma run_word_prefix (w : string) :
  w <> "" ->
  forall (s : string) (prev : option ascii),
    Str.startswith (Str.lower w) (Str.lower s) = true ->
    Re.run true (Re.Word w) prev s Re.accept = true.
Proof.
  induction w as [|c w IH]; [done|]. intros _ s prev Hpre.
  destruct s as [|x s]; [by rewrite lower_cons, startswith_nil_r in Hpre|].
  rewrite !lower_cons in Hpre. apply startswith_cons in Hpre as [Hc Hpre].
  assert (Hlit : Re.lit_matches true c x = true).
  { unfold Re.lit_matches. rewrite Hc. apply Ascii.eqb_refl. }
  destruct w as [|c' w].
  - change (Re.Word (String c "")) with (Re.Lit c). by rewrite run_lit, Hlit.
  - change (Re.Word (String c (String c' w)))
      with (Re.Seq (Re.Lit c) (Re.Word (String c' w))).
    rewrite run_seq, run_lit, Hlit. by apply IH.
Qed.

Lemma run_alts (icase : bool) (rs : list Re.regex) (r : Re.regex)
      (prev : option ascii) (s : string) (k : option ascii -> string -> bool) :
  In r rs -> Re.run icase r prev s k = true ->
  Re.run icase (Re.Alts rs) prev s k = true.
Proof.
  induction rs as [|r1 rs IH]; [done|]. intros Hin Hr.
  destruct rs as [|r2 rs].
  - destruct Hin as [<-|[]]. exact Hr.
  - change (Re.Alts (r1 :: r2 :: rs)) with (Re.Alt r1 (Re.Alts (r2 :: rs))).
    rewrite run_alt. destruct Hin as [<-|Hin]; [by rewrite Hr|].
    rewrite (IH Hin Hr). by destruct (Re.run icase r1 prev s k).
Qed.

Lemma search_from_contains (r : Re.regex) (w : string) :
  (forall s prev, Str.startswith w (Str.lower s) = true ->
                  Re.run true r prev s Re.accept = true) ->
  forall s prev, Str.contains w (Str.lower s) = true ->
                 Re.search_from true r prev s = true.
Proof.
  intros Hrun s. induction s as [|c s IH]; intros prev Hc.
  - rewrite search_from_unfold.
    change (Str.lower "") with "" in Hc.
    rewrite contains_nil, orb_false_r in Hc. by rewrite Hrun.
  - rewrite search_from_unfold.
    rewrite lower_cons, contains_cons, <- lower_cons in Hc.
    apply orb_true_iff in Hc as [Hc|Hc].
    + by rewrite Hrun.
    + rewrite IH by done. by destruct (Re.run _ _ _ _ _).
Qed.

(** X21. An answer whose lower-cased text holds one of the seventeen
    keywords of [REFERENCE_PAT], wherever it stands and also inside a
    longer word such as "preference", is an answer with a detected
    reference. *)
Theorem keyword_is_a_reference (kw answer : string) :
  In kw reference_keywords ->
  icontains kw answer ->
  detect_reference answer = true.
Proof.
  intros Hkw Hin. unfold detect_reference, pat_search. rewrite or_empty_id.
  unfold Re.search. apply (search_from_contains _ kw).
  - intros s prev Hpre.
    change (pat_regex REFERENCE_PAT)
      with (Re.Alt (Re.Alts (map Re.Word reference_keywords))
              (Re.Seqs [Re.WordB; Re.Plus (Re.Class false [Re.CDigit]);
                        Re.Plus (Re.Seq (Re.Lit ".") (Re.Plus (Re.Class false [Re.CDigit])));
                        Re.WordB])).
    rewrite run_alt.
    rewrite (run_alts true (map Re.Word reference_keywords) (Re.Word kw)); [done| |].
    + by apply in_map.
    + assert (Hlow : Str.lower kw = kw /\ kw <> "").
      { unfold reference_keywords in Hkw. simpl in Hkw.
        repeat (destruct Hkw as [<-|Hkw]; [by split; [vm_compute|]|]).
        destruct Hkw. }
      destruct Hlow as [Hlow Hne]. apply run_word_prefix; [done|].
      by rewrite Hlow.
  - by apply contains_spec.
Qed.

Lemma keyword_is_a_reference_witness :
  detect_reference "My preference is unchanged." = true.
Proof.
  apply (keyword_is_a_reference "refer").
  - right. left. reflexivity.
  - exists "my p", "ence is unchanged.". reflexivity.
Defined.

(** ** What [to_dict] keeps *)

Lemma to_dict_unfold (f : Finding) :
  to_dict f
  = <["details" := VDict (match details f with Some d => d | None => ∅ end)]>
      (asdict f).
Proof.
  unfold to_dict, get_is_none, asdict. rewrite lookup_insert_eq.
  destruct (details f) as [d|]; cbv iota beta zeta; [|done].
  by rewrite insert_insert_eq.
Qed.

(** X19. [to_dict] loses nothing but the difference between a missing
    [details] and an empty one: two findings with the same dictionary
    agree on every field, and on [details] once [None] is read as the
    empty mapping. *)
Theorem to_dict_determines_finding (f1 f2 : Finding) :
  to_dict f1 = to_dict f2 ->
  f_sheet f1 = f_sheet f2
  /\ f_row_idx f1 = f_row_idx f2
  /\ f_question_id f1 = f_question_id f2
  /\ f_question_text f1 = f_question_text f2
  /\ f_answer_text f1 = f_answer_text f2
  /\ f_expected_text f1 = f_expected_text f2
  /\ status f1 = status f2
  /\ reason f1 = reason f2
  /\ match details f1, details f2 with
     | Some d1, Some d2 => d1 = d2
     | Some d, None | None, Some d => d = ∅
     | None, None => True
     end.
Proof.
  rewrite !to_dict_unfold. unfold asdict. intros H.
  assert (Hl : forall k,
    (<["details" := VDict (match details f1 with Some d => d | None => ∅ end)]>
       (asdict f1)) !! k
    = (<["details" := VDict (match details f2 with Some d => d | None => ∅ end)]>
         (asdict f2)) !! k) by (intros k; unfold asdict; by rewrite H).
  pose proof (Hl "sheet") as H1. pose proof (Hl "row_idx") as H2.
  pose proof (Hl "question_id") as H3. pose proof (Hl "question_text") as H4.
  pose proof (Hl "answer_text") as H5. pose proof (Hl "expected_text") as H6.
  pose proof (Hl "status") as H7. pose proof (Hl "reason") as H8.
  pose proof (Hl "details") as H9. clear Hl H.
  unfold asdict in *. simplify_map_eq.
  repeat split; try congruence.
  - destruct (f_question_id f1), (f_question_id f2); simpl in *; congruence.
  - destruct (details f1), (details f2); first [done | congruence].
Qed.

Lemma to_dict_determines_finding_witness :
  to_dict (mkFinding "S" 1 None "q" "a" "e" "OK" "Passed rule checks." None)
  = to_dict (mkFinding "S" 1 None "q" "a" "e" "OK" "Passed rule checks." (Some ∅))
  /\ status (mkFinding "S" 1 None "q" "a" "e" "OK" "Passed rule checks." None)
     = status (mkFinding "S" 1 None "q" "a" "e" "OK" "Passed rule checks." (Some ∅)).
Proof.
  assert (H : to_dict (mkFinding "S" 1 None "q" "a" "e" "OK" "Passed rule checks." None)
  = to_dict (mkFinding "S" 1 None "q" "a" "e" "OK" "Passed rule checks." (Some ∅)))
    by (vm_compute; reflexivity).
  split; [exact H|].
  destruct (to_dict_determines_finding _ _ H) as (_ & _ & _ & _ & _ & _ & Hs & _).
  exact Hs.
Defined.

(** ** Redaction of rows *)

(** X20. Redaction keeps the number and order of the rows and, row by row,
    the key [(sheet, row_idx, question_id)]; an empty text stays empty,
    so redacted workbook rows still have no expected text. *)
Theorem redact_rows_keeps_keys (sub_name_label sub_title sub_by_from : string -> string)
        (rows : list QuestionRow) :
  length (redact_rows sub_name_label sub_title sub_by_from rows) = length rows
  /\ row_key <$> redact_rows sub_name_label sub_title sub_by_from rows = row_key <$> rows
  /\ (forall i row, redact_rows sub_name_label sub_title sub_by_from rows !! i = Some row ->
        exists row0, rows !! i = Some row0
                     /\ (question_text row0 = "" -> question_text row = "")
                     /\ (answer_text row0 = "" -> answer_text row = "")
                     /\ (expected_text row0 = "" -> expected_text row = "")).
Proof.
  unfold redact_rows. split; [apply length_fmap|]. split.
  - rewrite <- list_fmap_compose. by apply list_fmap_ext.
  - intros i row Hi. rewrite list_lookup_fmap in Hi.
    destruct (rows !! i) as [row0|]; [|done]. injection Hi as <-.
    exists row0. simpl. split; [done|].
    repeat split; intros ->; reflexivity.
Qed.

(** ** What a match means *)

(** The matcher only accepts what matches. *)
Lemma run_sound (icase : bool) (r : Re.regex) :
  forall (prev : option ascii) (s : string) (k : option ascii -> string -> bool),
    Re.run icase r prev s k = true ->
    exists p' s', matches_to icase r prev s p' s' /\ k p' s' = true.
Proof.
  induction r as [|c| |negated items|a IHa b IHb|a IHa b IHb|a IHa| | |];
    intros prev s k H.
  - exists prev, s. split; [constructor | exact H].
  - destruct s as [|x s]; [discriminate|]. simpl in H.
    destruct (Re.lit_matches icase c x) eqn:E; [|discriminate].
    exists (Some x), s. split; [by constructor | exact H].
  - destruct s as [|x s]; [discriminate|]. simpl in H.
    destruct (Ascii.eqb x Char.newline) eqn:E; [discriminate|].
    exists (Some x), s. split; [by constructor | exact H].
  - destruct s as [|x s]; [discriminate|]. simpl in H.
    destruct (xorb _ _) eqn:E; [|discriminate].
    exists (Some x), s. split; [by constructor | exact H].
  - simpl in H. apply IHa in H as (p1 & s1 & Ha & H).
    apply IHb in H as (p2 & s2 & Hb & H).
    exists p2, s2. split; [by econstructor | exact H].
  - simpl in H. destruct (Re.run icase a prev s k) eqn:E.
    + apply IHa in E as (p' & s' & Ha & Hk). exists p', s'. split; [by apply M_alt_l | done].
    + apply IHb in H as (p' & s' & Hb & Hk). exists p', s'. split; [by apply M_alt_r | done].
  - simpl in H. remember (String.length s) as fuel eqn:Hfuel. clear Hfuel.
    revert prev s H. induction fuel as [|fuel IHf]; intros prev s H.
    + destruct (k prev s) eqn:E; [|discriminate].
      exists prev, s. split; [constructor | done].
    + destruct (k prev s) eqn:E.
      * exists prev, s. split; [constructor | done].
      * apply IHa in H as (p1 & s1 & Ha & H).
        destruct (String.length s1 <? String.length s)%nat; [|discriminate].
        apply IHf in H as (p2 & s2 & Hs & Hk).
        exists p2, s2. split; [by econstructor | done].
  - simpl in H. destruct (Re.at_boundary prev s) eqn:E; [|discriminate].
    exists prev, s. split; [by constructor | done].
  - simpl in H. destruct prev; [discriminate|]. simpl in H.
    exists None, s. split; [constructor | done].
  - simpl in H. destruct (Re.at_end s) eqn:E; [|discriminate].
    exists prev, s. split; [by constructor | done].
Qed.

(** A search that succeeds found a match somewhere. *)
Lemma search_from_sound (icase : bool) (r : Re.regex) (s : string) :
  forall prev, Re.search_from icase r prev s = true ->
    exists pre post p p' s',
      s = pre +:+ post /\ matches_to icase r p post p' s'.
Proof.
  induction s as [|x s IH]; intros prev H; rewrite search_from_unfold in H.
  - destruct (Re.run icase r prev "" Re.accept) eqn:E; [|discriminate].
    apply run_sound in E as (p' & s' & Hm & _). by exists "", "", prev, p', s'.
  - destruct (Re.run icase r prev (String x s) Re.accept) eqn:E.
    + apply run_sound in E as (p' & s' & Hm & _).
      by exists "", (String x s), prev, p', s'.
    + apply IH in H as (pre & post & p & p' & s' & -> & Hm).
      by exists (String x pre), post, p, p', s'.
Qed.

Lemma append_assoc (a b c : string) : (a +:+ b) +:+ c = a +:+ (b +:+ c).
Proof.
  induction a as [|x a IH]; [done|]. rewrite !append_cons. by rewrite IH.
Qed.

(** A match consumes a prefix. *)
Lemma matches_to_prefix icase r p s p' s' :
  matches_to icase r p s p' s' -> exists a, s = a +:+ s'.
Proof.
  induction 1 as [ | | | |a b p s p1 s1 p2 s2 _ [u ->] _ [v ->]| | |
                  |a p s p1 s1 p2 s2 _ [u ->] _ [v ->]| | | ];
    try (by exists "");
    try (by eexists (String _ ""));
    try done.
  - exists (u +:+ v). by rewrite append_assoc.
  - exists (u +:+ v). by rewrite append_assoc.
Qed.

Lemma seq_inv icase a b p s p2 s2 :
  matches_to icase (Re.Seq a b) p s p2 s2 ->
  exists p1 s1, matches_to icase a p s p1 s1 /\ matches_to icase b p1 s1 p2 s2.
Proof. inversion 1; subst. eauto. Qed.

Lemma lit_inv icase c p s p' s' :
  matches_to icase (Re.Lit c) p s p' s' ->
  exists x, s = String x s' /\ Re.lit_matches icase c x = true.
Proof. inversion 1; subst. eauto. Qed.

Lemma class_inv icase negated items p s p' s' :
  matches_to icase (Re.Class negated items) p s p' s' ->
  exists x, s = String x s'
            /\ xorb negated (existsb (fun i => Re.citem_matches icase i x) items) = true.
Proof. inversion 1; subst. eauto. Qed.

Lemma eol_inv icase p s p' s' :
  matches_to icase Re.Eol p s p' s' -> s' = s /\ Re.at_end s = true.
Proof. inversion 1; subst. eauto. Qed.

Lemma bol_inv icase p s p' s' :
  matches_to icase Re.Bol p s p' s' -> s' = s.
Proof. by inversion 1; subst. Qed.

Lemma star_class_inv icase negated items p s p' s' :
  matches_to icase (Re.Star (Re.Class negated items)) p s p' s' ->
  exists a, s = a +:+ s'
    /\ all_chars (fun x => xorb negated
                             (existsb (fun i => Re.citem_matches icase i x) items)) a
       = true.
Proof.
  remember (Re.Star (Re.Class negated items)) as r eqn:Hr.
  induction 1 as [ | | | | | | |a p s|a p s p1 s1 p2 s2 Ha _ Hs IH| | | ];
    try discriminate.
  - by exists "".
  - injection Hr as ->. apply class_inv in Ha as (x & -> & Hx).
    destruct (IH eq_refl) as (u & -> & Hu).
    exists (String x u). split; [done|]. simpl. by rewrite Hx, Hu.
Qed.

Lemma plus_class_inv icase negated items p s p' s' :
  matches_to icase (Re.Plus (Re.Class negated items)) p s p' s' ->
  exists a, s = a +:+ s' /\ a <> ""
    /\ all_chars (fun x => xorb negated
                             (existsb (fun i => Re.citem_matches icase i x) items)) a
       = true.
Proof.
  intros H. apply seq_inv in H as (p1 & s1 & Hc & Hs).
  apply class_inv in Hc as (x & -> & Hx).
  apply star_class_inv in Hs as (u & -> & Hu).
  exists (String x u). split; [done|]. split; [done|]. simpl. by rewrite Hx, Hu.
Qed.

(** ** The shape of an accepted e-mail address *)

Lemma rstrip_cons (c : ascii) (s : string) :
  Str.rstrip (String c s)
  = match Str.rstrip s with
    | EmptyString => if Char.isspace c then EmptyString else String c EmptyString
    | String a b => String c (String a b)
    end.
Proof. reflexivity. Qed.

Lemma rstrip_snoc_space (t : string) (c : ascii) :
  Char.isspace c = true -> Str.rstrip (t +:+ String c "") = Str.rstrip t.
Proof.
  intros Hc. induction t as [|d t IH].
  - rewrite append_nil, rstrip_cons. simpl. by rewrite Hc.
  - by rewrite append_cons, !rstrip_cons, IH.
Qed.

Lemma rstrip_length (s : string) : (String.length (Str.rstrip s) <= String.length s)%nat.
Proof.
  induction s as [|c s IH]; [done|]. rewrite rstrip_cons.
  destruct (Str.rstrip s) as [|a b]; [destruct (Char.isspace c)|]; simpl in *; lia.
Qed.

Lemma append_length (a b : string) :
  String.length (a +:+ b) = (String.length a + String.length b)%nat.
Proof. induction a as [|x a IH]; [done|]. rewrite append_cons. simpl. by rewrite IH. Qed.

(** A trimmed string does not end in white space. *)
Lemma strip_no_trailing_space (s t : string) (c : ascii) :
  Str.strip s = t +:+ String c "" -> Char.isspace c = false.
Proof.
  intros H. destruct (Char.isspace c) eqn:Hc; [|done]. exfalso.
  assert (Hfix : Str.rstrip (Str.strip s) = Str.strip s)
    by (apply rstrip_lstrip_fixed, rstrip_idem).
  rewrite H, rstrip_snoc_space in Hfix by done.
  pose proof (rstrip_length t) as Hlen. rewrite Hfix, append_length in Hlen.
  simpl in Hlen. lia.
Qed.

(** X22. An answer that [looks_like_email] accepts is, once trimmed,
    [user@domain.tld] where the three parts are non-empty and hold
    neither "@" nor white space (the domain and the last part may hold
    further dots). *)
Theorem looks_like_email_shape (answer : string) :
  looks_like_email answer = true ->
  exists user domain tld,
    Str.strip answer = user +:+ "@" +:+ domain +:+ "." +:+ tld
    /\ user <> "" /\ domain <> "" /\ tld <> ""
    /\ all_chars email_char user = true
    /\ all_chars email_char domain = true
    /\ all_chars email_char tld = true.
Proof.
  unfold looks_like_email, pat_match, Re.matches. rewrite or_empty_id.
  change (pat_icase EMAIL_PAT) with false.
  change (pat_regex EMAIL_PAT)
    with (Re.Seq Re.Bol (Re.Seq (Re.Plus not_at_space) (Re.Seq (Re.Lit "@")
           (Re.Seq (Re.Plus not_at_space) (Re.Seq (Re.Lit ".")
             (Re.Seq (Re.Plus not_at_space) Re.Eol)))))).
  intros H. apply run_sound in H as (p' & s' & H & _).
  apply seq_inv in H as (p1 & s1 & Hb & H). apply bol_inv in Hb as ->.
  apply seq_inv in H as (p2 & s2 & Hu & H).
  apply plus_class_inv in Hu as (user & Hs1 & Hune & Hu).
  apply seq_inv in H as (p3 & s3 & Hat & H).
  apply lit_inv in Hat as (x & -> & Hx).
  apply Ascii.eqb_eq in Hx as ->.
  apply seq_inv in H as (p4 & s4 & Hd & H).
  apply plus_class_inv in Hd as (domain & -> & Hdne & Hd).
  apply seq_inv in H as (p5 & s5 & Hdot & H).
  apply lit_inv in Hdot as (y & -> & Hy).
  apply Ascii.eqb_eq in Hy as ->.
  apply seq_inv in H as (p6 & s6 & Ht & H).
  apply plus_class_inv in Ht as (tld & -> & Htne & Ht).
  apply eol_inv in H as [-> Hend].
  assert (Hclass : forall a,
    all_chars (fun x => xorb true
       (existsb (fun i => Re.citem_matches false i x) [Re.CLit "@"; Re.CSpace])) a = true ->
    all_chars email_char a = true).
  { induction a as [|c a IH]; [done|]. simpl. rewrite andb_true_iff.
    intros [Hc Ha]. rewrite (IH Ha), andb_true_r. unfold email_char.
    unfold Re.lit_matches in Hc. by destruct (Ascii.eqb c "@"), (Char.isspace c). }
  assert (Hshape : forall rest,
    user +:+ String "@" (domain +:+ String "." (tld +:+ rest))
    = (user +:+ "@" +:+ domain +:+ "." +:+ tld) +:+ rest).
  { intros rest.
    by rewrite ?append_assoc, ?append_cons, ?append_nil, ?append_assoc,
         ?append_cons, ?append_nil. }
  rewrite Hshape in Hs1.
  exists user, domain, tld.
  assert (Hs6 : s6 = "").
  { destruct s6 as [|c [|]]; try done. simpl in Hend. apply Ascii.eqb_eq in Hend as ->.
    by apply strip_no_trailing_space in Hs1. }
  subst s6.
  assert (Hnil : forall a, a +:+ "" = a).
  { induction a as [|c a IH]; [done|]. by rewrite append_cons, IH. }
  rewrite Hnil in Hs1. split; [exact Hs1 | by auto 10].
Qed.

Lemma looks_like_email_shape_witness :
  looks_like_email " jane.doe@example.org " = true
  /\ exists user domain tld,
       Str.strip " jane.doe@example.org " = user +:+ "@" +:+ domain +:+ "." +:+ tld
       /\ user <> "" /\ domain <> "" /\ tld <> ""
       /\ all_chars email_char user = true
       /\ all_chars email_char domain = true
       /\ all_chars email_char tld = true.
Proof.
  split; [reflexivity|].
  apply (looks_like_email_shape " jane.doe@example.org "). reflexivity.
Defined.

(** ** The digits of an accepted phone number *)

Lemma count_digits_app (a b : string) :
  count_digits (a +:+ b) = (count_digits a + count_digits b)%nat.
Proof.
  induction a as [|c a IH]; [done|]. rewrite append_cons. simpl. rewrite IH. lia.
Qed.

Lemma digit09_inv p s p' s' :
  matches_to false digit09 p s p' s' ->
  (count_digits s = 1 + count_digits s')%nat.
Proof.
  intros H. apply class_inv in H as (x & -> & Hx).
  change (Char.between 48 57 x || false = true) in Hx.
  rewrite orb_false_r in Hx.
  change (count_digits (String x s'))
    with ((if Char.between 48 57 x then 1 else 0) + count_digits s')%nat.
  by rewrite Hx.
Qed.

Lemma digit_then_any_inv r p s p' s' :
  matches_to false (Re.Seq digit09 (Re.Seq (Re.Star Re.Dot) r)) p s p' s' ->
  exists p1 s1, matches_to false r p1 s1 p' s'
                /\ (1 + count_digits s1 <= count_digits s)%nat.
Proof.
  intros H. apply seq_inv in H as (p1 & s1 & Hd & H).
  apply digit09_inv in Hd.
  apply seq_inv in H as (p2 & s2 & Hany & H).
  apply matches_to_prefix in Hany as [a ->].
  exists p2, s2. split; [done|]. rewrite Hd, count_digits_app. lia.
Qed.

(** X23. An answer that [looks_like_phone] accepts holds at least seven of
    the digits 0-9. *)
Theorem looks_like_phone_digits (answer : string) :
  looks_like_phone answer = true -> (7 <= count_digits answer)%nat.
Proof.
  unfold looks_like_phone, pat_search, Re.search. rewrite or_empty_id.
  change (pat_icase PHONE_PAT) with false.
  change (pat_regex PHONE_PAT)
    with (Re.Seq digit09 (Re.Seq (Re.Star Re.Dot)
           (Re.Seq digit09 (Re.Seq (Re.Star Re.Dot)
             (Re.Seq digit09 (Re.Seq (Re.Star Re.Dot)
               (Re.Seq digit09 (Re.Seq (Re.Star Re.Dot)
                 (Re.Seq digit09 (Re.Seq (Re.Star Re.Dot)
                   (Re.Seq digit09 (Re.Seq (Re.Star Re.Dot) digit09)))))))))))).
  intros H. apply search_from_sound in H as (pre & post & p & p' & s' & -> & H).
  rewrite count_digits_app.
  do 6 (apply digit_then_any_inv in H as (? & ? & H & ?)).
  apply digit09_inv in H. lia.
Qed.

Lemma looks_like_phone_digits_witness :
  looks_like_phone "+49 (0) 30 1234-5" = true
  /\ (7 <= count_digits "+49 (0) 30 1234-5")%nat.
Proof.
  split; [reflexivity|].
  apply (looks_like_phone_digits "+49 (0) 30 1234-5"). reflexivity.
Defined.
